(** * Tile (src/source/tile.js): a shallow embedding of the per-tile data and
    lifecycle manager, and the properties of its lifecycle, expiry, upload,
    mask tessellation and source-feature query code. *)

From Stdlib Require Import ZArith List String Bool Lia.
Import ListNotations.
Open Scope Z_scope.

(** ** Data model *)

(** [TileState] (tile.js, lines 35-42). *)
Inductive TileState :=
| loading | loaded | reloading | unloaded | errored | expired.

Definition TileState_eqb (a b : TileState) : bool :=
  match a, b with
  | loading, loading | loaded, loaded | reloading, reloading
  | unloaded, unloaded | errored, errored | expired, expired => true
  | _, _ => false
  end.

(** A tile coordinate (only the components tile.js reads). *)
Record TileCoord := mkTileCoord { tc_z : Z; tc_x : Z; tc_y : Z }.

Definition bytes := list Byte.byte.

(** Images and GPU textures. A texture remembers the image and the pixel
    format it was created from ([new Texture(gl, image, format)]). *)
Record Image := mkImage { image_id : nat }.
Inductive TexFormat := RGBA | ALPHA.
Record Texture := mkTexture { tex_image : Image; tex_format : TexFormat }.

(** A render bucket: its (opaque) contents and its [uploaded] flag. *)
Record Bucket := mkBucket { bucket_data : nat; uploaded : bool }.

Definition CollisionBox := nat.
Record FeatureIndex := mkFeatureIndex { fi_data : nat; fi_rawTileData : option bytes }.

(** Decoded vector-tile features and layers ([layer.length],
    [layer.feature(i)]). *)
Record VectorTileFeature := mkVectorTileFeature { vtf_id : Z; vtf_props : list (string * string) }.
Definition VectorTileLayer := list VectorTileFeature.

(** A mask is a JS object from tile ids to booleans; it is kept as its
    entries in [Object.keys] order, keys already converted with [+key]. *)
Definition Mask := list (Z * bool).

(** One element of a [RasterBoundsArray]: position and texture position. *)
Record RasterBoundsVertex := mkVertex { a_pos_x : Z; a_pos_y : Z; a_texture_pos_x : Z; a_texture_pos_y : Z }.
Definition Triangle := (Z * Z * Z)%type.
Record VertexBuffer := mkVertexBuffer { vb_array : list RasterBoundsVertex }.
Record IndexBuffer := mkIndexBuffer { ib_array : list Triangle }.

(** A segment of a [SegmentVector]. *)
Record Segment := mkSegment {
  vertexOffset : Z; primitiveOffset : Z; vertexLength : Z; primitiveLength : Z }.

(** A [SegmentVector]'s segments, the most recently opened first. *)
Definition SegmentVector := list Segment.

Record Tile := mkTile {
  coord : TileCoord;
  state : TileState;
  buckets : list (string * Bucket);
  iconAtlasImage : option Image;
  iconAtlasTexture : option Texture;
  glyphAtlasImage : option Image;
  glyphAtlasTexture : option Texture;
  expirationTime : option Z;
  expiredRequestCount : Z;
  rawTileData : option bytes;
  collisionBoxArray : option (list CollisionBox);
  featureIndex : option FeatureIndex;
  vtLayers : option (list (string * VectorTileLayer));
  mask : option Mask;
  maskedBoundsBuffer : option VertexBuffer;
  maskedIndexBuffer : option IndexBuffer;
  segments : option SegmentVector
}.

Definition set_coord (v : TileCoord) (t : Tile) : Tile :=
  mkTile v (t.(state)) (t.(buckets)) (t.(iconAtlasImage)) (t.(iconAtlasTexture)) (t.(glyphAtlasImage)) (t.(glyphAtlasTexture)) (t.(expirationTime)) (t.(expiredRequestCount)) (t.(rawTileData)) (t.(collisionBoxArray)) (t.(featureIndex)) (t.(vtLayers)) (t.(mask)) (t.(maskedBoundsBuffer)) (t.(maskedIndexBuffer)) (t.(segments)).
Definition set_state (v : TileState) (t : Tile) : Tile :=
  mkTile (t.(coord)) v (t.(buckets)) (t.(iconAtlasImage)) (t.(iconAtlasTexture)) (t.(glyphAtlasImage)) (t.(glyphAtlasTexture)) (t.(expirationTime)) (t.(expiredRequestCount)) (t.(rawTileData)) (t.(collisionBoxArray)) (t.(featureIndex)) (t.(vtLayers)) (t.(mask)) (t.(maskedBoundsBuffer)) (t.(maskedIndexBuffer)) (t.(segments)).
Definition set_buckets (v : list (string * Bucket)) (t : Tile) : Tile :=
  mkTile (t.(coord)) (t.(state)) v (t.(iconAtlasImage)) (t.(iconAtlasTexture)) (t.(glyphAtlasImage)) (t.(glyphAtlasTexture)) (t.(expirationTime)) (t.(expiredRequestCount)) (t.(rawTileData)) (t.(collisionBoxArray)) (t.(featureIndex)) (t.(vtLayers)) (t.(mask)) (t.(maskedBoundsBuffer)) (t.(maskedIndexBuffer)) (t.(segments)).
Definition set_iconAtlasImage (v : option Image) (t : Tile) : Tile :=
  mkTile (t.(coord)) (t.(state)) (t.(buckets)) v (t.(iconAtlasTexture)) (t.(glyphAtlasImage)) (t.(glyphAtlasTexture)) (t.(expirationTime)) (t.(expiredRequestCount)) (t.(rawTileData)) (t.(collisionBoxArray)) (t.(featureIndex)) (t.(vtLayers)) (t.(mask)) (t.(maskedBoundsBuffer)) (t.(maskedIndexBuffer)) (t.(segments)).
Definition set_iconAtlasTexture (v : option Texture) (t : Tile) : Tile :=
  mkTile (t.(coord)) (t.(state)) (t.(buckets)) (t.(iconAtlasImage)) v (t.(glyphAtlasImage)) (t.(glyphAtlasTexture)) (t.(expirationTime)) (t.(expiredRequestCount)) (t.(rawTileData)) (t.(collisionBoxArray)) (t.(featureIndex)) (t.(vtLayers)) (t.(mask)) (t.(maskedBoundsBuffer)) (t.(maskedIndexBuffer)) (t.(segments)).
Definition set_glyphAtlasImage (v : option Image) (t : Tile) : Tile :=
  mkTile (t.(coord)) (t.(state)) (t.(buckets)) (t.(iconAtlasImage)) (t.(iconAtlasTexture)) v (t.(glyphAtlasTexture)) (t.(expirationTime)) (t.(expiredRequestCount)) (t.(rawTileData)) (t.(collisionBoxArray)) (t.(featureIndex)) (t.(vtLayers)) (t.(mask)) (t.(maskedBoundsBuffer)) (t.(maskedIndexBuffer)) (t.(segments)).
Definition set_glyphAtlasTexture (v : option Texture) (t : Tile) : Tile :=
  mkTile (t.(coord)) (t.(state)) (t.(buckets)) (t.(iconAtlasImage)) (t.(iconAtlasTexture)) (t.(glyphAtlasImage)) v (t.(expirationTime)) (t.(expiredRequestCount)) (t.(rawTileData)) (t.(collisionBoxArray)) (t.(featureIndex)) (t.(vtLayers)) (t.(mask)) (t.(maskedBoundsBuffer)) (t.(maskedIndexBuffer)) (t.(segments)).
Definition set_expirationTime (v : option Z) (t : Tile) : Tile :=
  mkTile (t.(coord)) (t.(state)) (t.(buckets)) (t.(iconAtlasImage)) (t.(iconAtlasTexture)) (t.(glyphAtlasImage)) (t.(glyphAtlasTexture)) v (t.(expiredRequestCount)) (t.(rawTileData)) (t.(collisionBoxArray)) (t.(featureIndex)) (t.(vtLayers)) (t.(mask)) (t.(maskedBoundsBuffer)) (t.(maskedIndexBuffer)) (t.(segments)).
Definition set_expiredRequestCount (v : Z) (t : Tile) : Tile :=
  mkTile (t.(coord)) (t.(state)) (t.(buckets)) (t.(iconAtlasImage)) (t.(iconAtlasTexture)) (t.(glyphAtlasImage)) (t.(glyphAtlasTexture)) (t.(expirationTime)) v (t.(rawTileData)) (t.(collisionBoxArray)) (t.(featureIndex)) (t.(vtLayers)) (t.(mask)) (t.(maskedBoundsBuffer)) (t.(maskedIndexBuffer)) (t.(segments)).
Definition set_rawTileData (v : option bytes) (t : Tile) : Tile :=
  mkTile (t.(coord)) (t.(state)) (t.(buckets)) (t.(iconAtlasImage)) (t.(iconAtlasTexture)) (t.(glyphAtlasImage)) (t.(glyphAtlasTexture)) (t.(expirationTime)) (t.(expiredRequestCount)) v (t.(collisionBoxArray)) (t.(featureIndex)) (t.(vtLayers)) (t.(mask)) (t.(maskedBoundsBuffer)) (t.(maskedIndexBuffer)) (t.(segments)).
Definition set_collisionBoxArray (v : option (list CollisionBox)) (t : Tile) : Tile :=
  mkTile (t.(coord)) (t.(state)) (t.(buckets)) (t.(iconAtlasImage)) (t.(iconAtlasTexture)) (t.(glyphAtlasImage)) (t.(glyphAtlasTexture)) (t.(expirationTime)) (t.(expiredRequestCount)) (t.(rawTileData)) v (t.(featureIndex)) (t.(vtLayers)) (t.(mask)) (t.(maskedBoundsBuffer)) (t.(maskedIndexBuffer)) (t.(segments)).
Definition set_featureIndex (v : option FeatureIndex) (t : Tile) : Tile :=
  mkTile (t.(coord)) (t.(state)) (t.(buckets)) (t.(iconAtlasImage)) (t.(iconAtlasTexture)) (t.(glyphAtlasImage)) (t.(glyphAtlasTexture)) (t.(expirationTime)) (t.(expiredRequestCount)) (t.(rawTileData)) (t.(collisionBoxArray)) v (t.(vtLayers)) (t.(mask)) (t.(maskedBoundsBuffer)) (t.(maskedIndexBuffer)) (t.(segments)).
Definition set_vtLayers (v : option (list (string * VectorTileLayer))) (t : Tile) : Tile :=
  mkTile (t.(coord)) (t.(state)) (t.(buckets)) (t.(iconAtlasImage)) (t.(iconAtlasTexture)) (t.(glyphAtlasImage)) (t.(glyphAtlasTexture)) (t.(expirationTime)) (t.(expiredRequestCount)) (t.(rawTileData)) (t.(collisionBoxArray)) (t.(featureIndex)) v (t.(mask)) (t.(maskedBoundsBuffer)) (t.(maskedIndexBuffer)) (t.(segments)).
Definition set_mask (v : option Mask) (t : Tile) : Tile :=
  mkTile (t.(coord)) (t.(state)) (t.(buckets)) (t.(iconAtlasImage)) (t.(iconAtlasTexture)) (t.(glyphAtlasImage)) (t.(glyphAtlasTexture)) (t.(expirationTime)) (t.(expiredRequestCount)) (t.(rawTileData)) (t.(collisionBoxArray)) (t.(featureIndex)) (t.(vtLayers)) v (t.(maskedBoundsBuffer)) (t.(maskedIndexBuffer)) (t.(segments)).
Definition set_maskedBoundsBuffer (v : option VertexBuffer) (t : Tile) : Tile :=
  mkTile (t.(coord)) (t.(state)) (t.(buckets)) (t.(iconAtlasImage)) (t.(iconAtlasTexture)) (t.(glyphAtlasImage)) (t.(glyphAtlasTexture)) (t.(expirationTime)) (t.(expiredRequestCount)) (t.(rawTileData)) (t.(collisionBoxArray)) (t.(featureIndex)) (t.(vtLayers)) (t.(mask)) v (t.(maskedIndexBuffer)) (t.(segments)).
Definition set_maskedIndexBuffer (v : option IndexBuffer) (t : Tile) : Tile :=
  mkTile (t.(coord)) (t.(state)) (t.(buckets)) (t.(iconAtlasImage)) (t.(iconAtlasTexture)) (t.(glyphAtlasImage)) (t.(glyphAtlasTexture)) (t.(expirationTime)) (t.(expiredRequestCount)) (t.(rawTileData)) (t.(collisionBoxArray)) (t.(featureIndex)) (t.(vtLayers)) (t.(mask)) (t.(maskedBoundsBuffer)) v (t.(segments)).
Definition set_segments (v : option SegmentVector) (t : Tile) : Tile :=
  mkTile (t.(coord)) (t.(state)) (t.(buckets)) (t.(iconAtlasImage)) (t.(iconAtlasTexture)) (t.(glyphAtlasImage)) (t.(glyphAtlasTexture)) (t.(expirationTime)) (t.(expiredRequestCount)) (t.(rawTileData)) (t.(collisionBoxArray)) (t.(featureIndex)) (t.(vtLayers)) (t.(mask)) (t.(maskedBoundsBuffer)) (t.(maskedIndexBuffer)) v.

(** ** Effects and the state monad

    Calls into the GPU and bucket objects are recorded, in order, in an
    effect log; the tile's fields are threaded as state. *)

Inductive Effect :=
| DestroyBucket (id : string)        (* this.buckets[id].destroy() *)
| UploadBucket (id : string)         (* bucket.upload(gl) *)
| CreateTexture (tex : Texture)      (* new Texture(gl, image, format) *)
| DestroyTexture (tex : Texture)     (* texture.destroy() *)
| DestroySegments                    (* this.segments.destroy() *)
| DestroyVertexBuffer                (* this.maskedBoundsBuffer.destroy() *)
| DestroyIndexBuffer                 (* this.maskedIndexBuffer.destroy() *)
| CreateVertexBuffer (b : VertexBuffer)
| CreateIndexBuffer (b : IndexBuffer).

Record World := mkWorld { tile : Tile; effects : list Effect }.

Definition M (A : Type) := World -> A * World.

Definition ret {A} (a : A) : M A := fun w => (a, w).
Definition bind {A B} (m : M A) (k : A -> M B) : M B :=
  fun w => let (a, w') := m w in k a w'.

Notation "x <- c1 ;; c2" := (bind c1 (fun x => c2))
  (at level 61, c1 at next level, right associativity).
Notation "c1 ;; c2" := (bind c1 (fun _ => c2))
  (at level 61, right associativity).

Definition get : M Tile := fun w => (tile w, w).
Definition modify (f : Tile -> Tile) : M unit :=
  fun w => (tt, mkWorld (f (tile w)) (effects w)).
Definition emit (e : Effect) : M unit :=
  fun w => (tt, mkWorld (tile w) (effects w ++ [e])).
Definition skip : M unit := ret tt.

Definition exec {A} (m : M A) (w : World) : World := snd (m w).
Definition eval {A} (m : M A) (w : World) : A := fst (m w).

Fixpoint for_each {A} (f : A -> M unit) (l : list A) : M unit :=
  match l with
  | [] => skip
  | x :: l' => f x ;; for_each f l'
  end.

Fixpoint map_m {A B} (f : A -> M B) (l : list A) : M (list B) :=
  match l with
  | [] => ret []
  | x :: l' => y <- f x ;; ys <- map_m f l' ;; ret (y :: ys)
  end.

(** ** Lifecycle (tile.js, lines 90-188) *)

(** [new Tile(coord, size, sourceMaxZoom)]: [buckets = {}],
    [expirationTime = null], [expiredRequestCount = 0], [state = 'loading'];
    the other fields are undefined. *)
Definition newTile (c : TileCoord) : Tile :=
  mkTile c loading [] None None None None None 0 None None None None None None None None.

Definition wasRequested (t : Tile) : bool :=
  TileState_eqb t.(state) errored || TileState_eqb t.(state) loaded
  || TileState_eqb t.(state) reloading.

Definition hasData (t : Tile) : bool :=
  TileState_eqb t.(state) loaded || TileState_eqb t.(state) reloading
  || TileState_eqb t.(state) expired.

Definition unloadVectorData : M unit :=
  t <- get ;;
  for_each (fun '(id, _) => emit (DestroyBucket id)) t.(buckets) ;;
  modify (set_buckets []) ;;
  t <- get ;;
  match t.(iconAtlasTexture) with Some tex => emit (DestroyTexture tex) | None => skip end ;;
  match t.(glyphAtlasTexture) with Some tex => emit (DestroyTexture tex) | None => skip end ;;
  modify (set_collisionBoxArray None) ;;
  modify (set_featureIndex None) ;;
  modify (set_state unloaded).

(** The payload a worker delivers ([WorkerTileResult]). *)
Record WorkerTileResult := mkWorkerTileResult {
  wt_rawTileData : option bytes;
  wt_collisionBoxArray : list CollisionBox;
  wt_featureIndex : nat;
  wt_buckets : list (string * nat);
  wt_iconAtlasImage : option Image;
  wt_glyphAtlasImage : option Image }.

Section Ingest.
(** The bucket and feature-index deserializers live outside tile.js. *)
Variable Style : Type.
Variable deserializeBucket : list (string * nat) -> Style -> list (string * Bucket).
Variable FeatureIndex_deserialize : nat -> option bytes -> FeatureIndex.

Definition loadVectorData (data : option WorkerTileResult) (style : Style) : M unit :=
  t <- get ;;
  (if hasData t then unloadVectorData else skip) ;;
  modify (set_state loaded) ;;
  match data with
  | None => modify (set_collisionBoxArray (Some []))
  | Some d =>
      match d.(wt_rawTileData) with
      | Some raw => modify (set_rawTileData (Some raw))
      | None => skip
      end ;;
      modify (set_collisionBoxArray (Some d.(wt_collisionBoxArray))) ;;
      t <- get ;;
      modify (set_featureIndex (Some (FeatureIndex_deserialize d.(wt_featureIndex) t.(rawTileData)))) ;;
      modify (set_buckets (deserializeBucket d.(wt_buckets) style)) ;;
      match d.(wt_iconAtlasImage) with Some i => modify (set_iconAtlasImage (Some i)) | None => skip end ;;
      match d.(wt_glyphAtlasImage) with Some i => modify (set_glyphAtlasImage (Some i)) | None => skip end ;;
      match d.(wt_iconAtlasImage) with Some i => modify (set_iconAtlasImage (Some i)) | None => skip end ;;
      match d.(wt_glyphAtlasImage) with Some i => modify (set_glyphAtlasImage (Some i)) | None => skip end
  end.

End Ingest.

(** ** GPU upload (tile.js, lines 245-263) *)

Definition uploadBucket (entry : string * Bucket) : M (string * Bucket) :=
  let '(id, b) := entry in
  if negb b.(uploaded) then
    emit (UploadBucket id) ;;
    ret (id, mkBucket b.(bucket_data) true)
  else ret (id, b).

Definition upload : M unit :=
  t <- get ;;
  bs <- map_m uploadBucket t.(buckets) ;;
  modify (set_buckets bs) ;;
  t <- get ;;
  match t.(iconAtlasImage) with
  | Some img =>
      emit (CreateTexture (mkTexture img RGBA)) ;;
      modify (set_iconAtlasTexture (Some (mkTexture img RGBA))) ;;
      modify (set_iconAtlasImage None)
  | None => skip
  end ;;
  t <- get ;;
  match t.(glyphAtlasImage) with
  | Some img =>
      emit (CreateTexture (mkTexture img ALPHA)) ;;
      modify (set_glyphAtlasTexture (Some (mkTexture img ALPHA))) ;;
      modify (set_glyphAtlasImage None)
  | None => skip
  end.

(** ** JavaScript 32-bit shifts *)

(** [ToInt32]. *)
Definition toInt32 (x : Z) : Z :=
  let m := x mod 2 ^ 32 in if 2 ^ 31 <=? m then m - 2 ^ 32 else m.

(** [a >> b] and [a << b] on JS numbers. *)
Definition js_shr (a b : Z) : Z := Z.shiftr (toInt32 a) (Z.land b 31).
Definition js_shl (a b : Z) : Z := toInt32 (Z.shiftl (toInt32 a) (Z.land b 31)).

(** ** Mask tessellation (tile.js, lines 321-383) *)

Definition clearMask : M unit :=
  t <- get ;;
  match t.(segments) with
  | Some _ => emit DestroySegments ;; modify (set_segments None)
  | None => skip
  end ;;
  t <- get ;;
  match t.(maskedBoundsBuffer) with
  | Some _ => emit DestroyVertexBuffer ;; modify (set_maskedBoundsBuffer None)
  | None => skip
  end ;;
  t <- get ;;
  match t.(maskedIndexBuffer) with
  | Some _ => emit DestroyIndexBuffer ;; modify (set_maskedIndexBuffer None)
  | None => skip
  end.

Fixpoint mask_get (k : Z) (m : Mask) : option bool :=
  match m with
  | [] => None
  | (k', v) :: m' => if k =? k' then Some v else mask_get k m'
  end.

(** [util.deepEqual] on two mask objects: same number of keys and, for
    every key of the first, the same boolean in the second. *)
Definition deepEqual_mask (a b : Mask) : bool :=
  Nat.eqb (List.length a) (List.length b)
  && forallb (fun '(k, v) =>
       match mask_get k b with Some v' => Bool.eqb v v' | None => false end) a.

(** [util.deepEqual(this.mask, mask)]; an undefined [this.mask] is never
    deep-equal to an object. *)
Definition deepEqual (a : option Mask) (b : Mask) : bool :=
  match a with Some a => deepEqual_mask a b | None => false end.

(** The "whole tile" mask [{'0': true}]. *)
Definition wholeTileMask : Mask := [(0, true)].

Section MaskTessellation.
(** [TileCoord.fromID], the tile [EXTENT] and the segment capacity are
    defined outside tile.js; the development holds for any of them. *)
Variable fromID : Z -> TileCoord.
Variable EXTENT : Z.
Variable MAX_VERTEX_ARRAY_LENGTH : Z.

(** Modelled from the spec: [SegmentVector.prepareSegment] (data/segment.js),
    the segment allocator: it hands back the current (most recent) segment
    while it has room for [numVertices] more vertices, and otherwise starts
    a new segment at the current lengths of the vertex and index arrays.
    The returned segment is the head of the vector. *)
Definition prepareSegment (numVertices : Z) (sv : SegmentVector)
    (vertexCount primitiveCount : Z) : SegmentVector :=
  match sv with
  | s :: _ =>
      if MAX_VERTEX_ARRAY_LENGTH <? s.(vertexLength) + numVertices
      then mkSegment vertexCount primitiveCount 0 0 :: sv
      else sv
  | [] => [mkSegment vertexCount primitiveCount 0 0]
  end.

(** One iteration of the loop of [setMask] (lines 357-379) on the arrays
    [maskedBoundsArray], [indexArray] and the segment vector. *)
Definition emitMaskRegion
    (acc : list RasterBoundsVertex * list Triangle * SegmentVector) (key : Z)
    : list RasterBoundsVertex * list Triangle * SegmentVector :=
  let '(maskedBoundsArray, indexArray, sv) := acc in
  let maskCoord := fromID key in
  let vertexExtent := js_shr EXTENT maskCoord.(tc_z) in
  let tlx := maskCoord.(tc_x) * vertexExtent in
  let tly := maskCoord.(tc_y) * vertexExtent in
  let brx := tlx + vertexExtent in
  let bry := tly + vertexExtent in
  let sv := prepareSegment 4 sv (Z.of_nat (List.length maskedBoundsArray))
              (Z.of_nat (List.length indexArray)) in
  match sv with
  | segment :: rest =>
      let maskedBoundsArray := maskedBoundsArray ++
        [mkVertex tlx tly tlx tly; mkVertex brx tly brx tly;
         mkVertex tlx bry tlx bry; mkVertex brx bry brx bry] in
      let offset := segment.(vertexLength) in
      let indexArray := indexArray ++
        [(offset, offset + 1, offset + 2); (offset + 1, offset + 2, offset + 3)] in
      (maskedBoundsArray, indexArray,
       mkSegment segment.(vertexOffset) segment.(primitiveOffset)
         (segment.(vertexLength) + 4) (segment.(primitiveLength) + 2) :: rest)
  | [] => acc
  end.

(** [setMask]. The segment vector is stored in [this.segments] before the
    loop and mutated through the aliased segment objects; the model stores
    its final value, nothing reading it in between. *)
Definition setMask (m : Mask) : M unit :=
  t <- get ;;
  if deepEqual t.(mask) m then skip else
  (modify (set_mask (Some m)) ;;
   clearMask ;;
   if deepEqual (Some m) wholeTileMask then skip else
   (let sv := prepareSegment 0 [] 0 0 in
    let '(maskedBoundsArray, indexArray, sv) :=
      fold_left emitMaskRegion (map fst m) ([], [], sv) in
    modify (set_segments (Some sv)) ;;
    emit (CreateVertexBuffer (mkVertexBuffer maskedBoundsArray)) ;;
    modify (set_maskedBoundsBuffer (Some (mkVertexBuffer maskedBoundsArray))) ;;
    emit (CreateIndexBuffer (mkIndexBuffer indexArray)) ;;
    modify (set_maskedIndexBuffer (Some (mkIndexBuffer indexArray))))).

End MaskTessellation.

(** ** Expiry (tile.js, lines 389-447) *)

Definition CLOCK_SKEW_RETRY_TIMEOUT : Z := 30000.

(** Response cache metadata. [cacheControl] is [None] when the header is
    absent (or empty) and otherwise holds the [max-age] that
    [util.parseCacheControl] extracts ([None] when it has none);
    [expires] holds [new Date(data.expires).getTime()], [None] standing for
    [NaN]. A [NaN] or [null] [expirationTime] is [None]. *)
Record ExpiryData := mkExpiryData {
  cacheControl : option (option Z);
  expires : option (option Z) }.

(** JS truthiness of [this.expirationTime]. *)
Definition time_truthy (e : option Z) : bool :=
  match e with Some z => negb (z =? 0) | None => false end.

(** The expiration after the header block (lines 392-397), [now_cc] being
    the clock reading of line 394. *)
Definition expirationFromHeaders (data : ExpiryData) (now_cc : Z)
    (cur : option Z) : option Z :=
  match data.(cacheControl) with
  | Some maxAge =>
      match maxAge with
      | Some a => if a =? 0 then cur else Some (now_cc + a * 1000)
      | None => cur
      end
  | None =>
      match data.(expires) with
      | Some parsed => parsed
      | None => cur
      end
  end.

(** [setExpiryData(data)]; [now_cc] and [now] are the two [Date.now()]
    readings (lines 394 and 400). *)
Definition setExpiryData (data : ExpiryData) (now_cc now : Z) : M unit :=
  t <- get ;;
  let prior := t.(expirationTime) in
  modify (set_expirationTime (expirationFromHeaders data now_cc prior)) ;;
  t <- get ;;
  if negb (time_truthy t.(expirationTime)) then skip else
  let e := match t.(expirationTime) with Some e => e | None => 0 end in
  isExpired <-
    (if now <? e then ret false
     else if negb (time_truthy prior) then ret true
     else
       let p := match prior with Some p => p | None => 0 end in
       if e <? p then ret true
       else
         let delta := e - p in
         if delta =? 0 then ret true
         else (modify (set_expirationTime
                 (Some (now + Z.max delta CLOCK_SKEW_RETRY_TIMEOUT))) ;;
               ret false)) ;;
  t <- get ;;
  if isExpired then
    (modify (set_expiredRequestCount (t.(expiredRequestCount) + 1)) ;;
     modify (set_state expired))
  else modify (set_expiredRequestCount 0).

(** [getExpiryTimeout()], [now] being [new Date().getTime()]; [None] is
    [undefined]. *)
Definition getExpiryTimeout (t : Tile) (now : Z) : option Z :=
  if time_truthy t.(expirationTime) then
    if negb (t.(expiredRequestCount) =? 0) then
      Some (1000 * js_shl 1 (Z.min (t.(expiredRequestCount) - 1) 31))
    else
      let e := match t.(expirationTime) with Some e => e | None => 0 end in
      Some (Z.min (e - now) (2 ^ 31 - 1))
  else None.

(** ** Source-feature query (tile.js, lines 296-319) *)

(** A filter expression of the style specification. *)
Definition FilterSpecification := list string.

Record QueryParams := mkQueryParams {
  sourceLayer : option string;
  filter : option FilterSpecification }.

(** A [GeoJSONFeature] built from a vector-tile feature and the tile's
    [z], [x], [y], with the [tile] annotation of line 315. *)
Record GeoJSONFeature := mkGeoJSONFeature {
  gj_vectorTileFeature : VectorTileFeature;
  gj_z : Z; gj_x : Z; gj_y : Z;
  gj_tile : Z * Z * Z }.

Fixpoint lookup_layer (k : string) (ls : list (string * VectorTileLayer))
    : option VectorTileLayer :=
  match ls with
  | [] => None
  | (k', l) :: ls' => if String.eqb k k' then Some l else lookup_layer k ls'
  end.

Section SourceQuery.
(** The vector-tile decoder ([new vt.VectorTile(new Protobuf(raw)).layers])
    and [featureFilter] live outside tile.js. *)
Variable decodeLayers : bytes -> list (string * VectorTileLayer).
Variable featureFilter : option FilterSpecification -> Z -> VectorTileFeature -> bool.

(** [querySourceFeatures(result, params)]: the caller's [result] array is
    threaded through and returned with the pushed features. *)
Definition querySourceFeatures (result : list GeoJSONFeature)
    (params : option QueryParams) : M (list GeoJSONFeature) :=
  t <- get ;;
  match t.(rawTileData) with
  | None => ret result
  | Some raw =>
      match t.(vtLayers) with
      | None => modify (set_vtLayers (Some (decodeLayers raw)))
      | Some _ => skip
      end ;;
      t <- get ;;
      let vtLayers := match t.(vtLayers) with Some l => l | None => [] end in
      let sourceLayer :=
        match params with
        | Some p => match p.(sourceLayer) with Some s => s | None => "undefined"%string end
        | None => ""%string
        end in
      let layer :=
        match lookup_layer "_geojsonTileLayer" vtLayers with
        | Some l => Some l
        | None => lookup_layer sourceLayer vtLayers
        end in
      match layer with
      | None => ret result
      | Some layer =>
          let filter := featureFilter (match params with Some p => p.(filter) | None => None end) in
          let c := t.(coord) in
          ret (fold_left (fun result feature =>
                 if filter c.(tc_z) feature
                 then result ++ [mkGeoJSONFeature feature c.(tc_z) c.(tc_x) c.(tc_y)
                                   (c.(tc_z), c.(tc_x), c.(tc_y))]
                 else result) layer result)
      end
  end.

End SourceQuery.

(** ** Fading, symbol registration, placement and rendered-feature queries
    (tile.js, lines 108-115 and 190-294) *)

(** [registerFadeDuration] reads and writes only [timeAdded] and
    [fadeEndTime]; [fadeEndTime] is [None] while undefined. *)
Record FadeState := mkFadeState { timeAdded : Z; fadeEndTime : option Z }.

(** [registerFadeDuration(animationLoop, duration)], [now1] and [now2] being
    the two [Date.now()] readings (lines 110 and 114); the result carries the
    delay passed to [animationLoop.set], if any. *)
Definition registerFadeDuration (s : FadeState) (duration now1 now2 : Z)
    : FadeState * option Z :=
  let fadeEnd := duration + s.(timeAdded) in
  if fadeEnd <? now1 then (s, None)
  else if time_truthy s.(fadeEndTime) &&
          (fadeEnd <? match s.(fadeEndTime) with Some f => f | None => 0 end)
  then (s, None)
  else (mkFadeState s.(timeAdded) (Some fadeEnd), Some (fadeEnd - now2)).

(** A style layer, through the only field tile.js reads from it. *)
Record StyleLayer := mkStyleLayer { layer_id : string }.

Fixpoint lookup_bucket (k : string) (bs : list (string * Bucket)) : option Bucket :=
  match bs with
  | [] => None
  | (k', b) :: bs' => if String.eqb k k' then Some b else lookup_bucket k bs'
  end.

(** [getBucket(layer)]: [this.buckets[layer.id]]. *)
Definition getBucket (t : Tile) (layer : StyleLayer) : option Bucket :=
  lookup_bucket layer.(layer_id) t.(buckets).

(** Calls into the cross-tile symbol index. *)
Inductive CrossTileCall :=
| AddTileLayer (id : string) (c : TileCoord) (sourceMaxZoom : Z) (symbolInstances : nat)
| RemoveTileLayer (id : string) (c : TileCoord) (sourceMaxZoom : Z).

(** Calls of [commitPlacement]. *)
Inductive CommitCall :=
| UpdateOpacities (id : string)
| SortFeatures (id : string) (angle : Z)
| SetCollisionIndex.

Section SymbolOrchestration.
(** [bucket instanceof SymbolBucket], a property of the bucket's contents. *)
Variable isSymbolBucket : nat -> bool.

(** [added(crossTileSymbolIndex)]: the calls it makes, in bucket order; the
    symbol instances of a bucket are part of its contents. *)
Definition added (t : Tile) (sourceMaxZoom : Z) : list CrossTileCall :=
  flat_map (fun '(id, b) =>
              if isSymbolBucket b.(bucket_data)
              then [AddTileLayer id t.(coord) sourceMaxZoom b.(bucket_data)] else [])
           t.(buckets).

(** [removed(crossTileSymbolIndex)]. *)
Definition removed (t : Tile) (sourceMaxZoom : Z) : list CrossTileCall :=
  flat_map (fun '(id, b) =>
              if isSymbolBucket b.(bucket_data)
              then [RemoveTileLayer id t.(coord) sourceMaxZoom] else [])
           t.(buckets).

(** [placeLayer(...)]: [Some] of the bucket and collision-box array handed to
    [performSymbolPlacement] when it is called, [None] when the method does
    nothing. The matrices and ratios it also passes come from the camera
    transform, outside tile.js. *)
Definition placeLayer (t : Tile) (layer : StyleLayer)
    : option (Bucket * list CollisionBox) :=
  match getBucket t layer, t.(collisionBoxArray) with
  | Some b, Some cba => if isSymbolBucket b.(bucket_data) then Some (b, cba) else None
  | _, _ => None
  end.

(** [commitPlacement(collisionIndex, collisionFadeTimes, angle)]: the calls
    it makes, in order. *)
Definition commitPlacement (t : Tile) (angle : Z) : list CommitCall :=
  flat_map (fun '(id, b) =>
              if isSymbolBucket b.(bucket_data)
              then [UpdateOpacities id; SortFeatures id angle] else [])
           t.(buckets)
  ++ match t.(featureIndex) with Some _ => [SetCollisionIndex] | None => [] end.

End SymbolOrchestration.

(** The arguments [queryRenderedFeatures] passes to [featureIndex.query]. *)
Record QueryArgs := mkQueryArgs {
  qa_queryGeometry : list (list (Z * Z));
  qa_scale : Z;
  qa_tileSize : Z;
  qa_bearing : Z;
  qa_params : option FilterSpecification * list string;
  qa_additionalRadius : Z;
  qa_tileSourceMaxZoom : Z;
  qa_collisionBoxArray : option (list CollisionBox);
  qa_sourceID : string }.

(** A rendered-feature query result: layer id to [(featureIndex, feature)]
    records. *)
Definition QueryResult := list (string * list (Z * GeoJSONFeature)).

Section RenderedQuery.
(** [layer.queryRadius(bucket)] and [FeatureIndex.query] live outside
    tile.js. *)
Variable queryRadius : StyleLayer -> Bucket -> Z.
Variable FeatureIndex_query : FeatureIndex -> QueryArgs -> list (string * StyleLayer) -> QueryResult.

(** The loop of lines 275-281. *)
Definition additionalRadius (t : Tile) (layers : list (string * StyleLayer)) : Z :=
  fold_left (fun r '(_, layer) =>
               match getBucket t layer with
               | Some bucket => Z.max r (queryRadius layer bucket)
               | None => r
               end) layers 0.

(** [queryRenderedFeatures(layers, queryGeometry, scale, params, bearing,
    sourceID)]; [tileSize] and [sourceMaxZoom] are constructor arguments. *)
Definition queryRenderedFeatures (t : Tile) (tileSize sourceMaxZoom : Z)
    (layers : list (string * StyleLayer)) (queryGeometry : list (list (Z * Z)))
    (scale : Z) (params : option FilterSpecification * list string) (bearing : Z)
    (sourceID : string) : QueryResult :=
  match t.(featureIndex) with
  | None => []
  | Some fi =>
      FeatureIndex_query fi
        (mkQueryArgs queryGeometry scale tileSize bearing params
           (additionalRadius t layers) sourceMaxZoom t.(collisionBoxArray) sourceID)
        layers
  end.

End RenderedQuery.

(** ** Sequences of method calls *)

Section Operations.
Variable Style : Type.
Variable deserializeBucket : list (string * nat) -> Style -> list (string * Bucket).
Variable FeatureIndex_deserialize : nat -> option bytes -> FeatureIndex.
Variable fromID : Z -> TileCoord.
Variable EXTENT MAX_VERTEX_ARRAY_LENGTH : Z.
Variable decodeLayers : bytes -> list (string * VectorTileLayer).
Variable featureFilter : option FilterSpecification -> Z -> VectorTileFeature -> bool.

(** A call to one of the tile's state-changing methods, with its arguments. *)
Inductive TileOp :=
| OpLoadVectorData (data : option WorkerTileResult) (style : Style)
| OpUnloadVectorData
| OpUpload
| OpSetExpiryData (data : ExpiryData) (now_cc now : Z)
| OpSetMask (m : Mask)
| OpClearMask
| OpQuerySourceFeatures (result : list GeoJSONFeature) (params : option QueryParams).

Definition run_op (o : TileOp) : M unit :=
  match o with
  | OpLoadVectorData data style =>
      loadVectorData Style deserializeBucket FeatureIndex_deserialize data style
  | OpUnloadVectorData => unloadVectorData
  | OpUpload => upload
  | OpSetExpiryData data now_cc now => setExpiryData data now_cc now
  | OpSetMask m => setMask fromID EXTENT MAX_VERTEX_ARRAY_LENGTH m
  | OpClearMask => clearMask
  | OpQuerySourceFeatures result params =>
      querySourceFeatures decodeLayers featureFilter result params ;; skip
  end.

(** The calls made, in order, on one tile. *)
Definition run_ops (os : list TileOp) : M unit := for_each run_op os.

End Operations.

(** ** Specification-side definitions *)

(** The effects of releasing a tile's data: every bucket destroyed, then
    each atlas texture that is referenced. *)
Definition unload_effects (t : Tile) : list Effect :=
  map (fun '(id, _) => DestroyBucket id) t.(buckets)
  ++ match t.(iconAtlasTexture) with Some tex => [DestroyTexture tex] | None => [] end
  ++ match t.(glyphAtlasTexture) with Some tex => [DestroyTexture tex] | None => [] end.

(** The data-model invariant of the spec (section 3): a tile in a state
    without data holds no bucket and no feature index. *)
Definition data_inv (t : Tile) : Prop :=
  hasData t = false -> t.(buckets) = [] /\ t.(featureIndex) = None.

(** The mask invariant of the spec (section 3): when the applied mask is the
    "whole tile" mask, no mask buffers are allocated. *)
Definition mask_inv (t : Tile) : Prop :=
  deepEqual t.(mask) wholeTileMask = true ->
  t.(segments) = None /\ t.(maskedBoundsBuffer) = None /\ t.(maskedIndexBuffer) = None.

(** The effects of [clearMask]. *)
Definition clearMask_effects (t : Tile) : list Effect :=
  match t.(segments) with Some _ => [DestroySegments] | None => [] end
  ++ match t.(maskedBoundsBuffer) with Some _ => [DestroyVertexBuffer] | None => [] end
  ++ match t.(maskedIndexBuffer) with Some _ => [DestroyIndexBuffer] | None => [] end.

(** The calls [setMask] may make: only on the mask's GPU resources. *)
Definition mask_effect (e : Effect) : bool :=
  match e with
  | DestroySegments | DestroyVertexBuffer | DestroyIndexBuffer
  | CreateVertexBuffer _ | CreateIndexBuffer _ => true
  | _ => false
  end.

(** A tile's mask and mask resources. *)
Definition mask_fields (t : Tile)
    : option Mask * option VertexBuffer * option IndexBuffer * option SegmentVector :=
  (t.(mask), t.(maskedBoundsBuffer), t.(maskedIndexBuffer), t.(segments)).

(** ** Monad lemmas *)

Create HintDb tile_monad.
Hint Unfold bind ret get modify emit skip exec eval : tile_monad.

Ltac mrun := repeat progress (autounfold with tile_monad; cbn).

Lemma for_each_emit {A} (f : A -> M unit) (g : A -> Effect) (l : list A) (w : World) :
  (forall x w, f x w = (tt, mkWorld (tile w) (effects w ++ [g x]))) ->
  for_each f l w = (tt, mkWorld (tile w) (effects w ++ map g l)).
Proof.
  intros Hf; revert w; induction l as [|x l IH]; intros [t es]; mrun.
  - now rewrite app_nil_r.
  - rewrite Hf; cbn; rewrite IH; cbn. now rewrite <- app_assoc.
Qed.

Lemma unloadVectorData_run (w : World) :
  unloadVectorData w =
  (tt, mkWorld (set_state unloaded (set_featureIndex None
                 (set_collisionBoxArray None (set_buckets [] (tile w)))))
               (effects w ++ unload_effects (tile w))).
Proof.
  destruct w as [t es]. unfold unloadVectorData. mrun.
  rewrite (for_each_emit _ (fun x : string * Bucket => let '(id, _) := x in DestroyBucket id));
    [| now intros [? ?] ?].
  cbn. unfold unload_effects.
  destruct (iconAtlasTexture t), (glyphAtlasTexture t); mrun;
    rewrite ?app_nil_r, <- ?app_assoc; reflexivity.
Qed.

Arguments unloadVectorData : simpl never.

Lemma map_m_uploadBucket (l : list (string * Bucket)) (w : World) :
  map_m uploadBucket l w =
  (map (fun '(id, b) => (id, mkBucket b.(bucket_data) true)) l,
   mkWorld (tile w) (effects w ++ map (fun '(id, _) => UploadBucket id)
                                      (List.filter (fun '(_, b) => negb b.(uploaded)) l))).
Proof.
  revert w; induction l as [|[id [d u]] l IH]; intros [t es]; mrun.
  - now rewrite app_nil_r.
  - destruct u; mrun; rewrite IH; cbn; now rewrite <- ?app_assoc.
Qed.

(** The effects of [upload]. *)
Definition upload_effects (t : Tile) : list Effect :=
  map (fun '(id, _) => UploadBucket id)
      (List.filter (fun '(_, b) => negb b.(uploaded)) t.(buckets))
  ++ match t.(iconAtlasImage) with Some img => [CreateTexture (mkTexture img RGBA)] | None => [] end
  ++ match t.(glyphAtlasImage) with Some img => [CreateTexture (mkTexture img ALPHA)] | None => [] end.

Lemma upload_run (w : World) :
  exec upload w =
  mkWorld
    (set_glyphAtlasImage None
      (set_glyphAtlasTexture
         (match (tile w).(glyphAtlasImage) with
          | Some img => Some (mkTexture img ALPHA) | None => (tile w).(glyphAtlasTexture) end)
      (set_iconAtlasImage None
        (set_iconAtlasTexture
           (match (tile w).(iconAtlasImage) with
            | Some img => Some (mkTexture img RGBA) | None => (tile w).(iconAtlasTexture) end)
          (set_buckets (map (fun '(id, b) => (id, mkBucket b.(bucket_data) true)) (tile w).(buckets))
             (tile w))))))
    (effects w ++ upload_effects (tile w)).
Proof.
  destruct w as [[c st bs ii it gi gt ex cnt raw cba fi vt mk mbb mib sg] es].
  unfold upload. mrun. rewrite map_m_uploadBucket. cbn. unfold upload_effects; cbn.
  destruct ii, gi; mrun; rewrite <- ?app_assoc, ?app_nil_r; reflexivity.
Qed.

Lemma loadVectorData_null_run (Style : Type) deserializeBucket FeatureIndex_deserialize
    (style : Style) (w : World) :
  exec (loadVectorData Style deserializeBucket FeatureIndex_deserialize None style) w =
  if hasData (tile w) then
    mkWorld (set_collisionBoxArray (Some []) (set_state loaded
              (set_state unloaded (set_featureIndex None
                (set_collisionBoxArray None (set_buckets [] (tile w)))))))
            (effects w ++ unload_effects (tile w))
  else mkWorld (set_collisionBoxArray (Some []) (set_state loaded (tile w))) (effects w).
Proof.
  destruct w as [t es]. unfold loadVectorData. mrun.
  destruct (hasData t); mrun; [rewrite unloadVectorData_run|]; reflexivity.
Qed.

Lemma unloadVectorData_twice (w : World) :
  let w1 := exec unloadVectorData w in
  let w2 := exec unloadVectorData w1 in
  tile w2 = tile w1 /\
  effects w2 = effects w1
    ++ match (tile w).(iconAtlasTexture) with Some tex => [DestroyTexture tex] | None => [] end
    ++ match (tile w).(glyphAtlasTexture) with Some tex => [DestroyTexture tex] | None => [] end.
Proof.
  destruct w as [[c st bs ii it gi gt ex cnt raw cba fi vt mk mbb mib sg] es].
  cbn zeta. unfold exec. rewrite !unloadVectorData_run. cbn. split; reflexivity.
Qed.

(** A concrete ingestion setting used by the witnesses: buckets deserialize
    to not-yet-uploaded buckets, the feature index keeps its raw data. *)
Definition example_deserializeBucket (l : list (string * nat)) (_ : unit) : list (string * Bucket) :=
  map (fun '(k, v) => (k, mkBucket v false)) l.
Definition example_FeatureIndex_deserialize (n : nat) (raw : option bytes) : FeatureIndex :=
  mkFeatureIndex n raw.
Definition example_world : World := mkWorld (newTile (mkTileCoord 3 1 2)) [].
Definition example_payload : WorkerTileResult :=
  mkWorkerTileResult (Some [Byte.x1a; Byte.x02]) [1%nat] 7
    [("roads"%string, 1%nat); ("labels"%string, 2%nat)] (Some (mkImage 5)) None.
Definition example_load : M unit :=
  loadVectorData unit example_deserializeBucket example_FeatureIndex_deserialize
    (Some example_payload) tt.

(** ** Invariant preservation *)

Lemma data_inv_newTile (c : TileCoord) : data_inv (newTile c).
Proof. now intros _. Qed.

Lemma data_inv_unloadVectorData (w : World) :
  data_inv (tile (exec unloadVectorData w)).
Proof. unfold exec; rewrite unloadVectorData_run; now intros _. Qed.

Lemma data_inv_loadVectorData (Style : Type) deserializeBucket FeatureIndex_deserialize
    data (style : Style) (w : World) :
  data_inv (tile (exec (loadVectorData Style deserializeBucket FeatureIndex_deserialize data style) w)).
Proof.
  destruct w as [t es]. unfold loadVectorData. mrun.
  destruct (hasData t); mrun; [rewrite unloadVectorData_run; cbn|];
  destruct data as [d|]; mrun; try (intro H; discriminate H);
  destruct (wt_rawTileData d), (wt_iconAtlasImage d), (wt_glyphAtlasImage d); mrun;
  intro H; discriminate H.
Qed.

Lemma data_inv_upload (w : World) :
  data_inv (tile w) -> data_inv (tile (exec upload w)).
Proof.
  intros H. rewrite upload_run.
  destruct w as [[c st bs ii it gi gt ex cnt raw cba fi vt mk mbb mib sg] es].
  unfold data_inv in *; cbn in *. intros Hd. destruct (H Hd) as [-> ->]. now split.
Qed.

Lemma data_inv_setExpiryData (data : ExpiryData) (now_cc now : Z) (w : World) :
  data_inv (tile w) -> data_inv (tile (exec (setExpiryData data now_cc now) w)).
Proof.
  destruct w as [[c st bs ii it gi gt ex cnt raw cba fi vt mk mbb mib sg] es].
  unfold data_inv; cbn. intros Hinv.
  unfold setExpiryData. mrun.
  repeat match goal with
         | |- context [if ?b then _ else _] => destruct b; mrun
         | |- context [match ?e with Some _ => _ | None => _ end] => destruct e; mrun
         end;
  first [exact Hinv | intro H; discriminate H].
Qed.

(** ** Lifecycle and upload claims *)

(** C1: [hasData()] holds iff the state is loaded, reloading or expired;
    [wasRequested()] holds iff the state is errored, loaded or reloading; in
    particular [wasRequested()] is false in state expired. *)
Theorem hasData_wasRequested_states (t : Tile) :
  (hasData t = true <-> In t.(state) [loaded; reloading; expired]) /\
  (wasRequested t = true <-> In t.(state) [errored; loaded; reloading]) /\
  (t.(state) = expired -> wasRequested t = false).
Proof.
  unfold hasData, wasRequested.
  destruct (state t); cbn; intuition discriminate.
Qed.

(** C2 (claim as stated, refuted): the owning cache may set a tile that
    holds data to errored (the reloading -> errored transition) without
    unloading it; [hasData()] is then false, so [loadVectorData(null)] skips
    the release and the tile ends loaded with its old buckets. *)
Lemma loadVectorData_null_payload_errored_counterexample :
  let w := mkWorld (set_state errored (tile (exec example_load example_world))) [] in
  let w' := exec (loadVectorData unit example_deserializeBucket
                    example_FeatureIndex_deserialize None tt) w in
  hasData (tile w) = false /\
  (tile w').(state) = loaded /\
  (tile w').(buckets) = [("roads"%string, mkBucket 1 false); ("labels"%string, mkBucket 2 false)] /\
  effects w' = [].
Proof. vm_compute. repeat split; reflexivity. Qed.

(** C2 (amended): ingesting a null payload ends in state loaded with an
    empty collision-box array. When [hasData()] held, the prior data
    (buckets and atlas textures) is released first and the buckets and the
    feature index are cleared; otherwise nothing is released and the
    buckets and the feature index are left as they were. *)
Theorem loadVectorData_null_payload (Style : Type) deserializeBucket
    FeatureIndex_deserialize (style : Style) (w : World) :
  let w' := exec (loadVectorData Style deserializeBucket FeatureIndex_deserialize None style) w in
  (tile w').(state) = loaded /\
  (tile w').(collisionBoxArray) = Some [] /\
  (tile w').(buckets) = (if hasData (tile w) then [] else (tile w).(buckets)) /\
  (tile w').(featureIndex) = (if hasData (tile w) then None else (tile w).(featureIndex)) /\
  effects w' = effects w ++ (if hasData (tile w) then unload_effects (tile w) else []).
Proof.
  cbn zeta. rewrite loadVectorData_null_run.
  destruct (hasData (tile w)) eqn:Hd; cbn.
  - repeat split; reflexivity.
  - destruct w as [[c st bs ii it gi gt ex cnt raw cba fi vt mk mbb mib sg] es]; cbn in *.
    rewrite app_nil_r; repeat split; reflexivity.
Qed.

(** C3 (evaluation at the failing input): a tile that ingested a payload
    with an icon atlas image and uploaded it; the second of two consecutive
    [unloadVectorData] calls destroys the icon atlas texture again, since
    the texture reference is not cleared by the first call. *)
Theorem unloadVectorData_second_call_destroys_texture :
  let w1 := exec (example_load ;; upload ;; unloadVectorData) example_world in
  let w2 := exec unloadVectorData w1 in
  In (DestroyTexture (mkTexture (mkImage 5) RGBA)) (effects w1) /\
  effects w2 = effects w1 ++ [DestroyTexture (mkTexture (mkImage 5) RGBA)] /\
  tile w2 = tile w1.
Proof. vm_compute. split; [auto 8 | split; reflexivity]. Qed.

(** C9: [upload] uploads exactly the buckets not yet uploaded and sets
    every [uploaded] flag, turns each present atlas image into a texture
    and clears the image; a second consecutive call changes nothing and has
    no effect (no bucket upload, no texture created). *)
Theorem upload_idempotent (w : World) :
  let w1 := exec upload w in
  exec upload w1 = w1 /\
  effects w1 = effects w ++
    map (fun '(id, _) => UploadBucket id)
        (List.filter (fun '(_, b) => negb b.(uploaded)) (tile w).(buckets))
    ++ match (tile w).(iconAtlasImage) with Some img => [CreateTexture (mkTexture img RGBA)] | None => [] end
    ++ match (tile w).(glyphAtlasImage) with Some img => [CreateTexture (mkTexture img ALPHA)] | None => [] end /\
  map fst (tile w1).(buckets) = map fst (tile w).(buckets) /\
  Forall (fun '(_, b) => b.(uploaded) = true) (tile w1).(buckets) /\
  (tile w1).(iconAtlasImage) = None /\ (tile w1).(glyphAtlasImage) = None /\
  (tile w1).(iconAtlasTexture) =
    match (tile w).(iconAtlasImage) with
    | Some img => Some (mkTexture img RGBA) | None => (tile w).(iconAtlasTexture) end /\
  (tile w1).(glyphAtlasTexture) =
    match (tile w).(glyphAtlasImage) with
    | Some img => Some (mkTexture img ALPHA) | None => (tile w).(glyphAtlasTexture) end.
Proof.
  cbn zeta. rewrite !upload_run.
  destruct w as [[c st bs ii it gi gt ex cnt raw cba fi vt mk mbb mib sg] es]; cbn.
  assert (Hf : List.filter (fun '(_, b) => negb (uploaded b))
                 (map (fun '(id, b) => (id, mkBucket (bucket_data b) true)) bs) = []).
  { induction bs as [|[? ?] ? IH]; cbn; auto. }
  assert (Hm : map (fun '(id, b) => (id, mkBucket (bucket_data b) true))
                 (map (fun '(id, b) => (id, mkBucket (bucket_data b) true)) bs)
               = map (fun '(id, b) => (id, mkBucket (bucket_data b) true)) bs).
  { induction bs as [|[? ?] ? IH]; cbn; [reflexivity | now rewrite IH]. }
  unfold upload_effects; cbn. rewrite Hf, Hm, !app_nil_r. clear Hf Hm.
  repeat split.
  - induction bs as [|[? ?] ? IH]; cbn; [reflexivity | now rewrite IH].
  - induction bs as [|[? ?] ? IH]; cbn; constructor; [reflexivity | assumption].
Qed.

(** ** Expiry claims *)

Lemma setExpiryData_run (t : Tile) (es : list Effect) (data : ExpiryData)
    (now_cc now T1 : Z) :
  expirationFromHeaders data now_cc t.(expirationTime) = Some T1 -> T1 <> 0 ->
  exec (setExpiryData data now_cc now) (mkWorld t es) =
  let prior := t.(expirationTime) in
  let t1 := set_expirationTime (Some T1) t in
  if now <? T1 then mkWorld (set_expiredRequestCount 0 t1) es
  else if negb (time_truthy prior) then
    mkWorld (set_state expired (set_expiredRequestCount (t.(expiredRequestCount) + 1) t1)) es
  else
    let p := match prior with Some p => p | None => 0 end in
    if (T1 <? p) || (T1 - p =? 0) then
      mkWorld (set_state expired (set_expiredRequestCount (t.(expiredRequestCount) + 1) t1)) es
    else
      mkWorld (set_expiredRequestCount 0
                 (set_expirationTime (Some (now + Z.max (T1 - p) CLOCK_SKEW_RETRY_TIMEOUT)) t1)) es.
Proof.
  intros HT1 Hnz. unfold setExpiryData. mrun. rewrite HT1. cbn.
  replace (T1 =? 0) with false by (symmetry; apply Z.eqb_neq; exact Hnz). cbn.
  destruct (now <? T1); mrun; [reflexivity|].
  destruct (time_truthy (expirationTime t)); mrun; [|reflexivity].
  destruct (T1 <? match expirationTime t with Some p => p | None => 0 end); mrun; [reflexivity|].
  destruct (T1 - match expirationTime t with Some p => p | None => 0 end =? 0); mrun; reflexivity.
Qed.

(** C4 (claim as stated, refuted): with prior expiration 1000, a response
    whose [Expires] date is 2000 and the clock at 1500, the difference
    1000 is in (0, 30000) but the expiration stays 2000, not 1500 + 30000:
    the new expiration is still in the future, so no interpolation. *)
Lemma setExpiryData_clock_skew_future_counterexample :
  let w := mkWorld (set_expirationTime (Some 1000) (newTile (mkTileCoord 0 0 0))) [] in
  let data := mkExpiryData None (Some (Some 2000)) in
  expirationFromHeaders data 1500 (Some 1000) = Some 2000 /\
  0 < 2000 - 1000 < 30000 /\
  (tile (exec (setExpiryData data 1500 1500) w)).(expirationTime) = Some 2000 /\
  Some 2000 <> Some (1500 + 30000).
Proof.
  cbn zeta. split; [reflexivity|]. split; [lia|]. split; [reflexivity|]. discriminate.
Qed.

(** C4 (amended): for a non-zero prior expiration T0 and a non-zero new
    expiration T1 with 0 < T1 - T0 < 30000, [setExpiryData] leaves the state
    unchanged, resets [expiredRequestCount] to 0, and sets the expiration
    to now + 30000 when T1 <= now (interpolation); when T1 > now the
    expiration stays T1. *)
Theorem setExpiryData_clock_skew (w : World) (data : ExpiryData)
    (now_cc now T0 T1 : Z)
    (Hprior : (tile w).(expirationTime) = Some T0) (HT0 : T0 <> 0)
    (HT1 : expirationFromHeaders data now_cc (Some T0) = Some T1) (HT1nz : T1 <> 0)
    (Hdelta : 0 < T1 - T0 < CLOCK_SKEW_RETRY_TIMEOUT) :
  let w' := exec (setExpiryData data now_cc now) w in
  (tile w').(expirationTime) = Some (if T1 <=? now then now + CLOCK_SKEW_RETRY_TIMEOUT else T1) /\
  (tile w').(state) = (tile w).(state) /\
  (tile w').(expiredRequestCount) = 0 /\
  effects w' = effects w.
Proof.
  destruct w as [t es]; cbn in Hprior |- *.
  rewrite <- Hprior in HT1. rewrite (setExpiryData_run t es data now_cc now T1 HT1 HT1nz).
  rewrite Hprior. unfold CLOCK_SKEW_RETRY_TIMEOUT in *. cbn.
  destruct (now <? T1) eqn:E1.
  - apply Z.ltb_lt in E1. replace (T1 <=? now) with false by (symmetry; apply Z.leb_gt; lia).
    cbn. repeat split; reflexivity.
  - apply Z.ltb_ge in E1. replace (T1 <=? now) with true by (symmetry; apply Z.leb_le; lia).
    replace (T0 =? 0) with false by (symmetry; apply Z.eqb_neq; lia).
    replace (T1 <? T0) with false by (symmetry; apply Z.ltb_ge; lia).
    replace (T1 - T0 =? 0) with false by (symmetry; apply Z.eqb_neq; lia).
    cbn. rewrite Z.max_r by lia. repeat split; reflexivity.
Qed.

Lemma setExpiryData_clock_skew_witness :
  (tile (mkWorld (set_expirationTime (Some 1000) (newTile (mkTileCoord 0 0 0))) [])).(expirationTime)
    = Some 1000 /\
  (tile (exec (setExpiryData (mkExpiryData None (Some (Some 2000))) 5000 5000)
          (mkWorld (set_expirationTime (Some 1000) (newTile (mkTileCoord 0 0 0))) []))).(expirationTime)
    = Some (if 2000 <=? 5000 then 5000 + CLOCK_SKEW_RETRY_TIMEOUT else 2000).
Proof.
  split; [reflexivity|].
  apply (setExpiryData_clock_skew
           (mkWorld (set_expirationTime (Some 1000) (newTile (mkTileCoord 0 0 0))) [])
           (mkExpiryData None (Some (Some 2000))) 5000 5000 1000 2000);
    [reflexivity | discriminate | reflexivity | discriminate | vm_compute; split; reflexivity].
Defined.

(** C5 (claim as stated, refuted): with prior expiration 5000, a response
    whose [Expires] date is 3000 (earlier) and the clock at 1000, the tile is
    not marked expired and its [expiredRequestCount] is reset to 0: the new
    expiration is still in the future. *)
Lemma setExpiryData_regression_future_counterexample :
  let w := mkWorld (set_expirationTime (Some 5000) (newTile (mkTileCoord 0 0 0))) [] in
  let w' := exec (setExpiryData (mkExpiryData None (Some (Some 3000))) 1000 1000) w in
  (tile w').(state) = loading /\ (tile w').(state) <> expired /\
  (tile w').(expiredRequestCount) = 0 /\
  (tile w').(expiredRequestCount) <> (tile w).(expiredRequestCount) + 1.
Proof. cbn. split; [reflexivity | split; [discriminate | split; [reflexivity | discriminate]]]. Qed.

(** C5 (amended): when the new expiration T1 is non-zero and earlier than
    the prior T0, [setExpiryData] marks the tile expired and increments
    [expiredRequestCount] by exactly one if T1 <= now; if T1 > now the state
    is unchanged and the counter is reset to 0. The expiration becomes T1. *)
Theorem setExpiryData_regression (w : World) (data : ExpiryData)
    (now_cc now T0 T1 : Z)
    (Hprior : (tile w).(expirationTime) = Some T0)
    (HT1 : expirationFromHeaders data now_cc (Some T0) = Some T1) (HT1nz : T1 <> 0)
    (Hlt : T1 < T0) :
  let w' := exec (setExpiryData data now_cc now) w in
  (tile w').(expirationTime) = Some T1 /\
  (if T1 <=? now then
     (tile w').(state) = expired /\
     (tile w').(expiredRequestCount) = (tile w).(expiredRequestCount) + 1
   else
     (tile w').(state) = (tile w).(state) /\ (tile w').(expiredRequestCount) = 0).
Proof.
  destruct w as [t es]; cbn in Hprior |- *.
  rewrite <- Hprior in HT1. rewrite (setExpiryData_run t es data now_cc now T1 HT1 HT1nz).
  rewrite Hprior. cbn.
  destruct (now <? T1) eqn:E1.
  - apply Z.ltb_lt in E1. replace (T1 <=? now) with false by (symmetry; apply Z.leb_gt; lia).
    cbn. repeat split; reflexivity.
  - apply Z.ltb_ge in E1. replace (T1 <=? now) with true by (symmetry; apply Z.leb_le; lia).
    replace (T1 <? T0) with true by (symmetry; apply Z.ltb_lt; lia).
    destruct (negb (negb (T0 =? 0))); cbn; repeat split; reflexivity.
Qed.

Lemma setExpiryData_regression_witness :
  (tile (mkWorld (set_expirationTime (Some 5000) (newTile (mkTileCoord 0 0 0))) [])).(expirationTime)
    = Some 5000 /\
  (tile (exec (setExpiryData (mkExpiryData None (Some (Some 3000))) 6000 6000)
          (mkWorld (set_expirationTime (Some 5000) (newTile (mkTileCoord 0 0 0))) []))).(expirationTime)
    = Some 3000.
Proof.
  split; [reflexivity|].
  apply (setExpiryData_regression
           (mkWorld (set_expirationTime (Some 5000) (newTile (mkTileCoord 0 0 0))) [])
           (mkExpiryData None (Some (Some 3000))) 6000 6000 5000 3000);
    [reflexivity | reflexivity | discriminate | lia].
Defined.

Lemma js_shl_1_small (k : Z) : 0 <= k <= 30 -> js_shl 1 k = 2 ^ k.
Proof.
  intros Hk. unfold js_shl.
  replace (toInt32 1) with 1 by reflexivity.
  replace (Z.land k 31) with k.
  2:{ change 31 with (Z.ones 5). rewrite Z.land_ones by lia.
      symmetry; apply Z.mod_small. split; [lia|].
      apply Z.le_lt_trans with 30; [lia | reflexivity]. }
  rewrite Z.shiftl_1_l. unfold toInt32.
  assert (H31 : 2 ^ k < 2 ^ 31) by (apply Z.pow_lt_mono_r; lia).
  assert (H0 : 0 < 2 ^ k) by (apply Z.pow_pos_nonneg; lia).
  rewrite Z.mod_small by (split; [lia | apply Z.lt_trans with (2 ^ 31); [lia | reflexivity]]).
  replace (2 ^ 31 <=? 2 ^ k) with false by (symmetry; apply Z.leb_gt; lia).
  reflexivity.
Qed.

(** The backoff agrees with 1000 * 2 ^ (count - 1) for counts 1 to 31. *)
Lemma getExpiryTimeout_backoff_small (t : Tile) (now : Z) :
  time_truthy t.(expirationTime) = true ->
  1 <= t.(expiredRequestCount) <= 31 ->
  getExpiryTimeout t now = Some (1000 * 2 ^ (t.(expiredRequestCount) - 1)).
Proof.
  intros He Hc. unfold getExpiryTimeout. rewrite He.
  replace (t.(expiredRequestCount) =? 0) with false by (symmetry; apply Z.eqb_neq; lia).
  cbn. rewrite Z.min_l by lia. rewrite js_shl_1_small by lia. reflexivity.
Qed.

Fixpoint repeat_m (n : nat) (m : M unit) : M unit :=
  match n with O => skip | S n' => m ;; repeat_m n' m end.

(** A server serving the same expired resource 32 times in a row: each
    response has [Expires] 1000 while the clock reads 2000. *)
Definition stale_responses_world : World :=
  exec (repeat_m 32 (setExpiryData (mkExpiryData None (Some (Some 1000))) 2000 2000))
       (mkWorld (newTile (mkTileCoord 0 0 0)) []).

(** C6 (evaluation at the failing input): after 32 expired responses,
    [expiredRequestCount] is 32 and [getExpiryTimeout] returns
    1000 * (1 << 31) = -2147483648000 ms, a negative value, where the claim
    promises 1000 * 2 ^ 31 = 2147483648000 ms. *)
Theorem getExpiryTimeout_backoff_overflow :
  (tile stale_responses_world).(expiredRequestCount) = 32 /\
  (tile stale_responses_world).(state) = expired /\
  getExpiryTimeout (tile stale_responses_world) 2000 = Some (-2147483648000) /\
  1000 * 2 ^ Z.min (32 - 1) 31 = 2147483648000.
Proof. vm_compute. repeat split; reflexivity. Qed.

(** ** Mask claims *)

Lemma clearMask_run (w : World) :
  clearMask w =
  (tt, mkWorld (set_maskedIndexBuffer None (set_maskedBoundsBuffer None (set_segments None (tile w))))
               (effects w ++ clearMask_effects (tile w))).
Proof.
  destruct w as [[c st bs ii it gi gt ex cnt raw cba fi vt mk mbb mib sg] es].
  unfold clearMask, clearMask_effects. mrun.
  destruct sg, mbb, mib; mrun; rewrite <- ?app_assoc, ?app_nil_r; reflexivity.
Qed.

Arguments clearMask : simpl never.

(** The four corners of a sub-region, each vertex carrying its position
    twice (position and texture position). *)
Definition mask_quad (EXTENT : Z) (c : TileCoord) : list RasterBoundsVertex :=
  let ve := js_shr EXTENT c.(tc_z) in
  let x0 := c.(tc_x) * ve in
  let y0 := c.(tc_y) * ve in
  map (fun '(x, y) => mkVertex x y x y)
      [(x0, y0); (x0 + ve, y0); (x0, y0 + ve); (x0 + ve, y0 + ve)].

(** The two triangles of a quad whose first vertex is [offset]. *)
Definition quad_triangles (offset : Z) : list Triangle :=
  [(offset, offset + 1, offset + 2); (offset + 1, offset + 2, offset + 3)].

(** The head segment ends at the end of the vertex array. *)
Definition head_ok (vs : list RasterBoundsVertex) (sv : SegmentVector) : Prop :=
  exists s rest, sv = s :: rest /\
    s.(vertexOffset) + s.(vertexLength) = Z.of_nat (List.length vs).

(** Every segment of [sv] lives on in [sv'] with the same start and at least
    as many vertices. *)
Definition seg_extends (sv sv' : SegmentVector) : Prop :=
  forall s, In s sv -> exists s', In s' sv' /\
    s'.(vertexOffset) = s.(vertexOffset) /\ s.(vertexLength) <= s'.(vertexLength).

(** Some segment of [sv] starts where [s] starts and holds the four
    vertices that follow the first [vertexLength s] of [s]. *)
Definition seg_covers (sv : SegmentVector) (s : Segment) : Prop :=
  exists s', In s' sv /\
    s'.(vertexOffset) = s.(vertexOffset) /\ s.(vertexLength) + 4 <= s'.(vertexLength).

Lemma seg_extends_refl (sv : SegmentVector) : seg_extends sv sv.
Proof. intros s Hs. exists s; split; [exact Hs | split; lia]. Qed.

Lemma seg_extends_trans (a b c : SegmentVector) :
  seg_extends a b -> seg_extends b c -> seg_extends a c.
Proof.
  intros Hab Hbc s Hs. destruct (Hab s Hs) as (s1 & H1 & E1 & L1).
  destruct (Hbc s1 H1) as (s2 & H2 & E2 & L2). exists s2; split; [exact H2 | split; lia].
Qed.

Lemma seg_covers_extends (sv sv' : SegmentVector) (s : Segment) :
  seg_covers sv s -> seg_extends sv sv' -> seg_covers sv' s.
Proof.
  intros (s1 & H1 & E1 & L1) Hx. destruct (Hx s1 H1) as (s2 & H2 & E2 & L2).
  exists s2; split; [exact H2 | split; lia].
Qed.

Section MaskProofs.
Variable fromID : Z -> TileCoord.
Variable EXTENT : Z.
Variable MAX_VERTEX_ARRAY_LENGTH : Z.

Lemma emitMaskRegion_step (vs : list RasterBoundsVertex) (is : list Triangle)
    (sv : SegmentVector) (k : Z) :
  head_ok vs sv ->
  exists s rest,
    let s' := mkSegment s.(vertexOffset) s.(primitiveOffset) (s.(vertexLength) + 4)
                (s.(primitiveLength) + 2) in
    emitMaskRegion fromID EXTENT MAX_VERTEX_ARRAY_LENGTH (vs, is, sv) k =
      (vs ++ mask_quad EXTENT (fromID k), is ++ quad_triangles s.(vertexLength), s' :: rest) /\
    s.(vertexOffset) + s.(vertexLength) = Z.of_nat (List.length vs) /\
    seg_extends sv (s' :: rest) /\ seg_covers (s' :: rest) s.
Proof.
  intros (s0 & rest0 & -> & Hs0).
  unfold emitMaskRegion, prepareSegment.
  destruct (MAX_VERTEX_ARRAY_LENGTH <? vertexLength s0 + 4).
  - exists (mkSegment (Z.of_nat (List.length vs)) (Z.of_nat (List.length is)) 0 0), (s0 :: rest0).
    cbn. split; [reflexivity|]. split; [lia|]. split.
    + intros s Hs. exists s; split; [right; exact Hs | split; lia].
    + eexists; split; [left; reflexivity | cbn; split; lia].
  - exists s0, rest0. cbn. split; [reflexivity|]. split; [exact Hs0|]. split.
    + intros s [<- | Hs].
      * eexists; split; [left; reflexivity | cbn; split; lia].
      * exists s; split; [right; exact Hs | split; lia].
    + eexists; split; [left; reflexivity | cbn; split; lia].
Qed.

Lemma emitMaskRegion_fold (keys : list Z) :
  forall vs0 is0 sv0 vs is sv,
  head_ok vs0 sv0 ->
  fold_left (emitMaskRegion fromID EXTENT MAX_VERTEX_ARRAY_LENGTH) keys (vs0, is0, sv0) = (vs, is, sv) ->
  head_ok vs sv /\ seg_extends sv0 sv /\
  vs = vs0 ++ List.concat (map (fun k => mask_quad EXTENT (fromID k)) keys) /\
  exists segs, List.length segs = List.length keys /\
    is = is0 ++ List.concat (map (fun s => quad_triangles s.(vertexLength)) segs) /\
    forall i s, nth_error segs i = Some s ->
      s.(vertexOffset) + s.(vertexLength) = Z.of_nat (List.length vs0) + 4 * Z.of_nat i /\
      seg_covers sv s.
Proof.
  induction keys as [|k keys IH]; intros vs0 is0 sv0 vs is sv Hok Hf.
  - cbn in Hf. injection Hf as <- <- <-.
    split; [exact Hok|]. split; [apply seg_extends_refl|]. split; [now rewrite app_nil_r|].
    exists []. split; [reflexivity|]. split; [now rewrite app_nil_r|].
    intros [|i] s Hs; discriminate Hs.
  - cbn [fold_left] in Hf.
    destruct (emitMaskRegion_step vs0 is0 sv0 k Hok) as (s & rest & Hstep & Hpos & Hext & Hcov).
    rewrite Hstep in Hf.
    assert (Hok1 : head_ok (vs0 ++ mask_quad EXTENT (fromID k))
                     (mkSegment (vertexOffset s) (primitiveOffset s) (vertexLength s + 4)
                        (primitiveLength s + 2) :: rest)).
    { eexists; eexists; split; [reflexivity|]. cbn.
      rewrite length_app. unfold mask_quad; cbn [map List.length]. lia. }
    destruct (IH _ _ _ _ _ _ Hok1 Hf) as (Hok' & Hext' & Hvs & segs & Hlen & His & Hsegs).
    split; [exact Hok'|]. split; [eapply seg_extends_trans; eassumption|].
    split; [rewrite Hvs; cbn [map List.concat]; now rewrite app_assoc|].
    exists (s :: segs). split; [cbn; now rewrite Hlen|].
    split; [rewrite His; cbn [map List.concat]; now rewrite app_assoc|].
    intros [|i] s1 Hs1; cbn in Hs1.
    + injection Hs1 as <-. split; [lia|]. eapply seg_covers_extends; eassumption.
    + destruct (Hsegs i s1 Hs1) as [Hp Hc]. split; [|exact Hc].
      rewrite Hp, length_app. unfold mask_quad; cbn [map List.length]. lia.
Qed.

Lemma setMask_tessellate_run (w : World) (m : Mask) (vs : list RasterBoundsVertex)
    (is : list Triangle) (sv : SegmentVector) :
  deepEqual (tile w).(mask) m = false ->
  deepEqual (Some m) wholeTileMask = false ->
  fold_left (emitMaskRegion fromID EXTENT MAX_VERTEX_ARRAY_LENGTH) (map fst m)
    ([], [], prepareSegment MAX_VERTEX_ARRAY_LENGTH 0 [] 0 0) = (vs, is, sv) ->
  exec (setMask fromID EXTENT MAX_VERTEX_ARRAY_LENGTH m) w =
  mkWorld (set_maskedIndexBuffer (Some (mkIndexBuffer is))
            (set_maskedBoundsBuffer (Some (mkVertexBuffer vs))
              (set_segments (Some sv)
                (set_maskedIndexBuffer None (set_maskedBoundsBuffer None
                  (set_segments None (set_mask (Some m) (tile w))))))))
          (effects w ++ clearMask_effects (tile w)
             ++ [CreateVertexBuffer (mkVertexBuffer vs); CreateIndexBuffer (mkIndexBuffer is)]).
Proof.
  intros Hne Hnw Hf.
  destruct w as [[c st bs ii it gi gt ex cnt raw cba fi vt mk mbb mib sg] es]; cbn in Hne |- *.
  unfold setMask. mrun. rewrite Hne. mrun. rewrite clearMask_run. cbn.
  change (deepEqual (Some m) wholeTileMask) with (deepEqual_mask m wholeTileMask) in Hnw.
  change (prepareSegment MAX_VERTEX_ARRAY_LENGTH 0 [] 0 0) with [mkSegment 0 0 0 0] in Hf.
  rewrite Hnw. cbn. rewrite Hf. mrun. now rewrite <- !app_assoc.
Qed.

(** C7: a mask deep-equal to the applied one changes nothing and has no
    effect; the "whole tile" mask, on a tile satisfying the mask invariant,
    releases the prior mask buffers (and only those) and leaves no segments,
    vertex buffer or index buffer allocated. *)
Theorem setMask_same_or_whole_tile (w : World) (m : Mask) :
  (deepEqual (tile w).(mask) m = true ->
   exec (setMask fromID EXTENT MAX_VERTEX_ARRAY_LENGTH m) w = w) /\
  (mask_inv (tile w) ->
   let w' := exec (setMask fromID EXTENT MAX_VERTEX_ARRAY_LENGTH wholeTileMask) w in
   (tile w').(segments) = None /\ (tile w').(maskedBoundsBuffer) = None /\
   (tile w').(maskedIndexBuffer) = None /\
   effects w' = effects w ++ clearMask_effects (tile w) /\ mask_inv (tile w')).
Proof.
  split.
  - intros Heq. destruct w as [t es]. cbn [tile] in Heq.
    unfold setMask, bind, get, exec. cbv beta iota. cbn [tile]. now rewrite Heq.
  - intros Hinv.
    destruct w as [[c st bs ii it gi gt ex cnt raw cba fi vt mk mbb mib sg] es].
    unfold mask_inv in Hinv; cbn in Hinv |- *.
    unfold setMask. mrun.
    destruct (deepEqual mk wholeTileMask) eqn:Hd; mrun.
    + destruct (Hinv eq_refl) as (-> & -> & ->). unfold clearMask_effects; cbn.
      rewrite app_nil_r. repeat split; try reflexivity; try (intros _; repeat split; reflexivity).
    + rewrite clearMask_run. cbn. repeat split; try reflexivity; try (intros _; repeat split; reflexivity).
Qed.

Lemma length_concat_mask_quad (keys : list Z) :
  List.length (List.concat (map (fun k => mask_quad EXTENT (fromID k)) keys))
  = (4 * List.length keys)%nat.
Proof.
  induction keys as [|k keys IH]; [reflexivity|].
  cbn [map List.concat]. rewrite length_app, IH. unfold mask_quad; cbn [map List.length]. lia.
Qed.

Lemma length_concat_quad_triangles (segs : list Segment) :
  List.length (List.concat (map (fun s => quad_triangles s.(vertexLength)) segs))
  = (2 * List.length segs)%nat.
Proof.
  induction segs as [|s segs IH]; [reflexivity|].
  cbn [map List.concat]. rewrite length_app, IH. unfold quad_triangles; cbn [List.length]. lia.
Qed.

(** C8: a mask that is neither the applied one nor the "whole tile" mask is
    tessellated into, per sub-region in key order, the 4 corner vertices of
    its rectangle [EXTENT >> z] (texture position equal to position) and the
    2 triangles [offset, offset+1, offset+2], [offset+1, offset+2, offset+3],
    [offset] being the vertex count of the sub-region's segment before it;
    that segment starts at [vertexOffset] with [vertexOffset + offset = 4 i]
    for the [i]-th sub-region, and a segment of the final vector starting
    there holds those 4 vertices: each triangle references exactly the 4
    vertices just emitted. *)
Theorem setMask_tessellation (w : World) (m : Mask)
    (Hne : deepEqual (tile w).(mask) m = false)
    (Hnw : deepEqual (Some m) wholeTileMask = false) :
  let w' := exec (setMask fromID EXTENT MAX_VERTEX_ARRAY_LENGTH m) w in
  exists vs is sv segs,
    (tile w').(maskedBoundsBuffer) = Some (mkVertexBuffer vs) /\
    (tile w').(maskedIndexBuffer) = Some (mkIndexBuffer is) /\
    (tile w').(segments) = Some sv /\
    vs = List.concat (map (fun k => mask_quad EXTENT (fromID k)) (map fst m)) /\
    List.length vs = (4 * List.length m)%nat /\
    List.length segs = List.length m /\
    is = List.concat (map (fun s => quad_triangles s.(vertexLength)) segs) /\
    List.length is = (2 * List.length m)%nat /\
    (forall i s, nth_error segs i = Some s ->
       s.(vertexOffset) + s.(vertexLength) = 4 * Z.of_nat i /\ seg_covers sv s) /\
    effects w' = effects w ++ clearMask_effects (tile w)
      ++ [CreateVertexBuffer (mkVertexBuffer vs); CreateIndexBuffer (mkIndexBuffer is)].
Proof.
  cbn zeta.
  destruct (fold_left (emitMaskRegion fromID EXTENT MAX_VERTEX_ARRAY_LENGTH) (map fst m)
              ([], [], prepareSegment MAX_VERTEX_ARRAY_LENGTH 0 [] 0 0)) as [[vs is] sv] eqn:Hf.
  rewrite (setMask_tessellate_run w m vs is sv Hne Hnw Hf).
  assert (Hok : head_ok [] (prepareSegment MAX_VERTEX_ARRAY_LENGTH 0 [] 0 0)).
  { eexists; eexists; split; reflexivity. }
  destruct (emitMaskRegion_fold (map fst m) _ _ _ vs is sv Hok Hf)
    as (_ & _ & Hvs & segs & Hlen & His & Hsegs).
  rewrite length_map in Hlen. rewrite app_nil_l in Hvs, His.
  assert (Hlv : List.length vs = (4 * List.length m)%nat).
  { rewrite Hvs, length_concat_mask_quad, length_map; reflexivity. }
  assert (Hli : List.length is = (2 * List.length m)%nat).
  { rewrite His, length_concat_quad_triangles, Hlen; reflexivity. }
  exists vs, is, sv, segs. cbn [tile effects].
  split; [reflexivity|]. split; [reflexivity|]. split; [reflexivity|].
  split; [exact Hvs|]. split; [exact Hlv|]. split; [exact Hlen|].
  split; [exact His|]. split; [exact Hli|].
  split; [|reflexivity].
  intros i s Hs. destruct (Hsegs i s Hs) as [Hp Hc]. split; [rewrite Hp; cbn; lia | exact Hc].
Qed.

End MaskProofs.

Lemma mask_inv_newTile (c : TileCoord) : mask_inv (newTile c).
Proof. intros H; discriminate H. Qed.

Lemma mask_inv_setMask fromID EXTENT MAX_VERTEX_ARRAY_LENGTH (w : World) (m : Mask) :
  mask_inv (tile w) ->
  mask_inv (tile (exec (setMask fromID EXTENT MAX_VERTEX_ARRAY_LENGTH m) w)).
Proof.
  intros Hinv.
  destruct (deepEqual (tile w).(mask) m) eqn:Heq.
  - destruct w as [t es]; cbn [tile] in Heq, Hinv |- *.
    unfold setMask, bind, get, exec. cbv beta iota. cbn [tile]. now rewrite Heq.
  - destruct (deepEqual (Some m) wholeTileMask) eqn:Hw.
    + destruct w as [t es]; cbn [tile] in Heq |- *.
      unfold setMask, bind, get, exec. cbv beta iota. cbn [tile]. rewrite Heq.
      unfold modify. cbn [tile effects]. rewrite clearMask_run. cbn [tile].
      change (deepEqual (Some m) wholeTileMask) with (deepEqual_mask m wholeTileMask) in Hw.
      cbn. rewrite Hw. intros _. cbn. now repeat split.
    + destruct (fold_left (emitMaskRegion fromID EXTENT MAX_VERTEX_ARRAY_LENGTH) (map fst m)
                  ([], [], prepareSegment MAX_VERTEX_ARRAY_LENGTH 0 [] 0 0)) as [[vs is] sv] eqn:Hf.
      rewrite (setMask_tessellate_run fromID EXTENT MAX_VERTEX_ARRAY_LENGTH w m vs is sv Heq Hw Hf).
      intros H. exfalso. cbn in H. cbn in Hw. congruence.
Qed.

(** A concrete [TileCoord.fromID] for the witnesses: the zoom in the low
    five bits, then x and y. *)
Definition example_fromID (id : Z) : TileCoord :=
  let z := id mod 32 in
  let dim := 2 ^ z in
  let xy := id / 32 in
  mkTileCoord z (xy mod dim) ((xy / dim) mod dim).

Definition example_mask : Mask := [(33, true); (97, true)].

Lemma setMask_same_or_whole_tile_witness :
  mask_inv (tile example_world) /\
  (tile (exec (setMask example_fromID 8192 65535 wholeTileMask) example_world)).(segments) = None.
Proof.
  split; [apply mask_inv_newTile|].
  exact (proj1 (proj2 (setMask_same_or_whole_tile example_fromID 8192 65535 example_world
                         wholeTileMask) (mask_inv_newTile _))).
Defined.

Lemma setMask_tessellation_witness :
  deepEqual (tile example_world).(mask) example_mask = false /\
  deepEqual (Some example_mask) wholeTileMask = false /\
  exists vs, (tile (exec (setMask example_fromID 8192 65535 example_mask) example_world)).(maskedBoundsBuffer)
             = Some (mkVertexBuffer vs).
Proof.
  split; [reflexivity|]. split; [reflexivity|].
  destruct (setMask_tessellation example_fromID 8192 65535 example_world example_mask
              eq_refl eq_refl) as (vs & is & sv & segs & H & _).
  exists vs; exact H.
Defined.

(** ** Source-feature query claim *)

Lemma fold_push_filter {A B} (p : A -> bool) (g : A -> B) (l : list A) (acc : list B) :
  fold_left (fun acc x => if p x then acc ++ [g x] else acc) l acc
  = acc ++ map g (List.filter p l).
Proof.
  revert acc; induction l as [|x l IH]; intros acc; cbn.
  - now rewrite app_nil_r.
  - destruct (p x); rewrite IH; cbn; [now rewrite <- app_assoc | reflexivity].
Qed.

(** The source layer [querySourceFeatures] reads from decoded layers. *)
Definition query_layer (ls : list (string * VectorTileLayer)) (params : option QueryParams)
    : option VectorTileLayer :=
  match lookup_layer "_geojsonTileLayer" ls with
  | Some l => Some l
  | None =>
      lookup_layer (match params with
                    | Some p => match p.(sourceLayer) with Some s => s | None => "undefined"%string end
                    | None => ""%string
                    end) ls
  end.

Section SourceQueryProofs.
Variable decodeLayers : bytes -> list (string * VectorTileLayer).
Variable featureFilter : option FilterSpecification -> Z -> VectorTileFeature -> bool.

(** C10: [unloadVectorData] keeps [rawTileData] and the cached [vtLayers],
    so on a tile holding raw vector data [querySourceFeatures] after an
    unload returns exactly what it returns before it: the caller's result
    extended with every feature of the requested layer, decoded from the
    old raw payload (or its cached parse), that passes the filter. *)
Theorem querySourceFeatures_after_unload (w : World) (result : list GeoJSONFeature)
    (params : option QueryParams) (raw : bytes)
    (Hraw : (tile w).(rawTileData) = Some raw) :
  let w1 := exec unloadVectorData w in
  let layers := match (tile w).(vtLayers) with Some l => l | None => decodeLayers raw end in
  let c := (tile w).(coord) in
  (tile w1).(rawTileData) = Some raw /\
  (tile w1).(vtLayers) = (tile w).(vtLayers) /\
  eval (querySourceFeatures decodeLayers featureFilter result params) w1
    = eval (querySourceFeatures decodeLayers featureFilter result params) w /\
  eval (querySourceFeatures decodeLayers featureFilter result params) w1
    = result ++ match query_layer layers params with
                | Some layer =>
                    map (fun f => mkGeoJSONFeature f c.(tc_z) c.(tc_x) c.(tc_y)
                                    (c.(tc_z), c.(tc_x), c.(tc_y)))
                        (List.filter (featureFilter (match params with Some p => p.(filter) | None => None end)
                                        c.(tc_z)) layer)
                | None => []
                end.
Proof.
  cbn zeta. unfold exec. rewrite !unloadVectorData_run. cbn [snd].
  destruct w as [[c st bs ii it gi gt ex cnt raw' cba fi vt mk mbb mib sg] es].
  cbn in Hraw |- *. subst raw'.
  split; [reflexivity|]. split; [reflexivity|].
  unfold querySourceFeatures, eval. mrun.
  destruct vt as [ls|]; mrun; unfold query_layer;
    (destruct (lookup_layer "_geojsonTileLayer" _) as [l|];
     [| destruct (lookup_layer _ _) as [l|]]);
    rewrite ?fold_push_filter, ?app_nil_r; split; reflexivity.
Qed.

End SourceQueryProofs.

Definition example_decodeLayers (raw : bytes) : list (string * VectorTileLayer) :=
  [("roads"%string, [mkVectorTileFeature (Z.of_nat (List.length raw)) []; mkVectorTileFeature 2 []])].
Definition example_featureFilter (_ : option FilterSpecification) (_ : Z) (_ : VectorTileFeature) : bool := true.

Lemma querySourceFeatures_after_unload_witness :
  (tile (exec example_load example_world)).(rawTileData) = Some [Byte.x1a; Byte.x02] /\
  List.length (eval (querySourceFeatures example_decodeLayers example_featureFilter []
                 (Some (mkQueryParams (Some "roads"%string) None)))
              (exec unloadVectorData (exec example_load example_world))) = 2%nat.
Proof.
  split; [reflexivity|].
  destruct (querySourceFeatures_after_unload example_decodeLayers example_featureFilter
              (exec example_load example_world) [] (Some (mkQueryParams (Some "roads"%string) None))
              [Byte.x1a; Byte.x02] eq_refl) as (_ & _ & _ & H).
  rewrite H. reflexivity.
Defined.

(** * Further properties of tile.js *)

(** ** Buckets and upload *)

Lemma lookup_bucket_mark_uploaded (k : string) (bs : list (string * Bucket)) :
  lookup_bucket k (map (fun '(id, b) => (id, mkBucket b.(bucket_data) true)) bs)
  = option_map (fun b => mkBucket b.(bucket_data) true) (lookup_bucket k bs).
Proof.
  induction bs as [|[k' b] bs IH]; cbn; [reflexivity|].
  destruct (String.eqb k k'); [reflexivity | exact IH].
Qed.

(** X1: after [upload], [getBucket] returns, for every layer, the bucket it
    returned before with the same contents and [uploaded] set; a layer
    without a bucket still has none. *)
Theorem getBucket_after_upload (w : World) (layer : StyleLayer) :
  getBucket (tile (exec upload w)) layer
  = option_map (fun b => mkBucket b.(bucket_data) true) (getBucket (tile w) layer).
Proof.
  rewrite upload_run.
  destruct w as [[c st bs ii it gi gt ex cnt raw cba fi vt mk mbb mib sg] es].
  unfold getBucket; cbn. apply lookup_bucket_mark_uploaded.
Qed.

(** ** Ingestion *)

(** X2: [loadVectorData] with a payload first releases the old data when the
    tile has data (emitting exactly the unload effects), then sets the state
    to loaded, the buckets to the deserialized ones and the collision boxes to
    the payload's; it keeps the old [rawTileData] when the payload carries
    none and builds the feature index from the resulting raw data; it keeps
    an atlas image the payload lacks, and leaves the atlas textures, the
    expiry fields, the decoded [vtLayers] cache and the mask fields as they
    were. *)
Theorem loadVectorData_payload (Style : Type) deserializeBucket FeatureIndex_deserialize
    (d : WorkerTileResult) (style : Style) (w : World) :
  let t := tile w in
  let w' := exec (loadVectorData Style deserializeBucket FeatureIndex_deserialize (Some d) style) w in
  let raw := match d.(wt_rawTileData) with Some r => Some r | None => t.(rawTileData) end in
  tile w' =
    mkTile t.(coord) loaded (deserializeBucket d.(wt_buckets) style)
      (match d.(wt_iconAtlasImage) with Some i => Some i | None => t.(iconAtlasImage) end)
      t.(iconAtlasTexture)
      (match d.(wt_glyphAtlasImage) with Some i => Some i | None => t.(glyphAtlasImage) end)
      t.(glyphAtlasTexture) t.(expirationTime) t.(expiredRequestCount)
      raw (Some d.(wt_collisionBoxArray))
      (Some (FeatureIndex_deserialize d.(wt_featureIndex) raw))
      t.(vtLayers) t.(mask) t.(maskedBoundsBuffer) t.(maskedIndexBuffer) t.(segments) /\
  effects w' = effects w ++ (if hasData t then unload_effects t else []).
Proof.
  destruct w as [[c st bs ii it gi gt ex cnt raw cba fi vt mk mbb mib sg] es].
  cbn zeta. unfold loadVectorData. mrun.
  destruct (hasData _); mrun; [rewrite unloadVectorData_run; cbn|];
  destruct (wt_rawTileData d), (wt_iconAtlasImage d), (wt_glyphAtlasImage d); mrun;
  rewrite ?app_nil_r; split; reflexivity.
Qed.

(** X3: [loadVectorData] never resets the decoded [vtLayers] cache: once a
    source-feature query has decoded the layers, a later payload with new raw
    data replaces [rawTileData], but [querySourceFeatures] keeps answering
    from the layers decoded from the old data. *)
Theorem querySourceFeatures_stale_after_reload (Style : Type) deserializeBucket
    FeatureIndex_deserialize decodeLayers featureFilter (d : WorkerTileResult)
    (style : Style) (w : World) (result : list GeoJSONFeature)
    (params : option QueryParams) (ls : list (string * VectorTileLayer)) (raw : bytes)
    (Hvt : (tile w).(vtLayers) = Some ls) (Hraw : d.(wt_rawTileData) = Some raw) :
  let w' := exec (loadVectorData Style deserializeBucket FeatureIndex_deserialize (Some d) style) w in
  let c := (tile w).(coord) in
  (tile w').(rawTileData) = Some raw /\
  eval (querySourceFeatures decodeLayers featureFilter result params) w'
    = result ++ match query_layer ls params with
                | Some layer =>
                    map (fun f => mkGeoJSONFeature f c.(tc_z) c.(tc_x) c.(tc_y)
                                    (c.(tc_z), c.(tc_x), c.(tc_y)))
                        (List.filter (featureFilter (match params with Some p => p.(filter) | None => None end)
                                        c.(tc_z)) layer)
                | None => []
                end.
Proof.
  destruct w as [[c st bs ii it gi gt ex cnt raw' cba fi vt mk mbb mib sg] es].
  cbn in Hvt; subst vt. cbn zeta. unfold loadVectorData. mrun. rewrite Hraw.
  destruct (hasData _); mrun; [rewrite unloadVectorData_run; cbn|];
  destruct (wt_iconAtlasImage d), (wt_glyphAtlasImage d); mrun;
  (split; [reflexivity|]).
  all: unfold querySourceFeatures, eval, query_layer; mrun.
  all: destruct (lookup_layer "_geojsonTileLayer" _) as [l|];
         [| destruct (lookup_layer _ _) as [l|]].
  all: rewrite ?fold_push_filter, ?app_nil_r; reflexivity.
Qed.

(** ** Expiry *)

(** X4: [setExpiryData] makes no GPU or bucket call and changes at most the
    expiration time, the expired-request count and the state, the state
    only ever to expired. *)
Theorem setExpiryData_frame (data : ExpiryData) (now_cc now : Z) (w : World) :
  let w' := exec (setExpiryData data now_cc now) w in
  effects w' = effects w /\
  exists e n,
    tile w' = set_expiredRequestCount n (set_expirationTime e (tile w)) \/
    tile w' = set_state expired (set_expiredRequestCount n (set_expirationTime e (tile w))).
Proof.
  destruct w as [[c st bs ii it gi gt ex cnt raw cba fi vt mk mbb mib sg] es].
  cbn zeta. unfold setExpiryData. mrun.
  repeat match goal with
         | |- context [if ?b then _ else _] => destruct b; mrun
         | |- context [match ?e with Some _ => _ | None => _ end] => destruct e; mrun
         end.
  all: split; [reflexivity|].
  all: unfold set_expiredRequestCount, set_expirationTime, set_state; cbn.
  all: first [ eexists _, _; left; reflexivity | eexists _, _; right; reflexivity ].
Qed.

(** X6: a response with [Cache-Control: max-age=a] (a > 0) received at a
    non-negative time [now] sets the expiration to [now + 1000 a], resets
    the expired-request count and keeps the state; [getExpiryTimeout] then
    returns [1000 a], capped at [2^31 - 1]. *)
Theorem setExpiryData_max_age_timeout (a now : Z) (w : World)
    (Ha : 0 < a) (Hnow : 0 <= now) :
  let w' := exec (setExpiryData (mkExpiryData (Some (Some a)) None) now now) w in
  (tile w').(expirationTime) = Some (now + a * 1000) /\
  (tile w').(expiredRequestCount) = 0 /\
  (tile w').(state) = (tile w).(state) /\
  getExpiryTimeout (tile w') now = Some (Z.min (a * 1000) (2 ^ 31 - 1)).
Proof.
  destruct w as [t es]. cbn zeta.
  rewrite (setExpiryData_run t es _ now now (now + a * 1000)).
  2:{ unfold expirationFromHeaders; cbn.
      replace (a =? 0) with false by (symmetry; apply Z.eqb_neq; lia). reflexivity. }
  2:{ lia. }
  replace (now <? now + a * 1000) with true by (symmetry; apply Z.ltb_lt; lia).
  destruct t; cbn. repeat split.
  unfold getExpiryTimeout; cbn.
  replace (now + a * 1000 =? 0) with false by (symmetry; apply Z.eqb_neq; lia).
  cbn. f_equal. f_equal. lia.
Qed.

Lemma setExpiryData_stale_step (T now_cc now : Z) (w : World) :
  T <> 0 -> T <= now ->
  (time_truthy (tile w).(expirationTime) = false \/
   exists p, (tile w).(expirationTime) = Some p /\ T <= p) ->
  exec (setExpiryData (mkExpiryData None (Some (Some T))) now_cc now) w
  = mkWorld (set_state expired (set_expiredRequestCount ((tile w).(expiredRequestCount) + 1)
               (set_expirationTime (Some T) (tile w)))) (effects w).
Proof.
  intros HT Hle Hp. destruct w as [t es]; cbn in Hp |- *.
  rewrite (setExpiryData_run t es (mkExpiryData None (Some (Some T))) now_cc now T eq_refl HT). cbn zeta.
  replace (now <? T) with false by (symmetry; apply Z.ltb_ge; lia).
  destruct Hp as [Hf | (p & Hp & HTp)].
  - rewrite Hf. reflexivity.
  - rewrite Hp. cbn. destruct (p =? 0); cbn; [reflexivity|].
    destruct (T <? p) eqn:E; [reflexivity|].
    apply Z.ltb_ge in E. replace (T - p =? 0) with true by (symmetry; apply Z.eqb_eq; lia).
    reflexivity.
Qed.

Lemma exec_repeat_m_S (n : nat) (m : M unit) (w : World) :
  exec (repeat_m (S n) m) w = exec (repeat_m n m) (exec m w).
Proof. unfold exec; cbn; unfold bind; now destruct (m w). Qed.

(** X7: a server answering [n + 1] times in a row with the same [Expires]
    date [T] that is already past ([T <= now]) increments the
    expired-request count once per response and leaves the tile expired
    with expiration [T], provided the tile had no expiration yet or one not
    before [T]. *)
Theorem setExpiryData_repeated_stale (T now_cc now : Z) (n : nat) (w : World)
    (HT : T <> 0) (Hle : T <= now)
    (Hprior : time_truthy (tile w).(expirationTime) = false \/
              exists p, (tile w).(expirationTime) = Some p /\ T <= p) :
  exec (repeat_m (S n) (setExpiryData (mkExpiryData None (Some (Some T))) now_cc now)) w
  = mkWorld (set_state expired
               (set_expiredRequestCount ((tile w).(expiredRequestCount) + Z.of_nat (S n))
                  (set_expirationTime (Some T) (tile w)))) (effects w).
Proof.
  revert w Hprior; induction n as [|n IH]; intros w Hprior.
  - rewrite exec_repeat_m_S, (setExpiryData_stale_step T now_cc now w HT Hle Hprior).
    reflexivity.
  - rewrite exec_repeat_m_S, (setExpiryData_stale_step T now_cc now w HT Hle Hprior).
    rewrite IH by (right; exists T; cbn; destruct (tile w); split; [reflexivity | lia]).
    destruct w as [[c st bs ii it gi gt ex cnt raw cba fi vt mk mbb mib sg] es].
    cbn [tile effects set_state set_expiredRequestCount set_expirationTime expiredRequestCount].
    replace (cnt + Z.of_nat (S (S n))) with (cnt + 1 + Z.of_nat (S n)) by lia.
    reflexivity.
Qed.


(** X9: the back-off path is not capped: with an expiration set and an
    expired-request count between 23 and 31, [getExpiryTimeout] returns more
    than [2^31 - 1] ms. *)
Theorem getExpiryTimeout_backoff_exceeds_cap (t : Tile) (now : Z)
    (He : time_truthy t.(expirationTime) = true)
    (Hc : 23 <= t.(expiredRequestCount) <= 31) :
  exists x, getExpiryTimeout t now = Some x /\ 2 ^ 31 - 1 < x.
Proof.
  rewrite getExpiryTimeout_backoff_small by (assumption || lia).
  eexists; split; [reflexivity|].
  assert (2 ^ 22 <= 2 ^ (t.(expiredRequestCount) - 1)) by (apply Z.pow_le_mono_r; lia).
  lia.
Qed.

(** ** Masks *)

(** X10: [clearMask] is idempotent: a second call finds no mask buffer
    left, destroys nothing and changes nothing. *)
Theorem clearMask_idempotent (w : World) :
  exec clearMask (exec clearMask w) = exec clearMask w.
Proof.
  unfold exec. rewrite !clearMask_run. cbn [snd tile effects].
  destruct w as [[c st bs ii it gi gt ex cnt raw cba fi vt mk mbb mib sg] es].
  unfold clearMask_effects; cbn. now rewrite !app_nil_r.
Qed.

Lemma mask_get_In (m : Mask) (k : Z) (v : bool) :
  NoDup (map fst m) -> In (k, v) m -> mask_get k m = Some v.
Proof.
  induction m as [|[k' v'] m IH]; cbn; [contradiction|].
  intros Hnd Hin. inversion Hnd as [|? ? Hnin Hnd']; subst.
  destruct Hin as [Heq | Hin].
  - injection Heq as -> ->. now rewrite Z.eqb_refl.
  - destruct (Z.eqb_spec k k') as [->|]; [|now apply IH].
    exfalso. apply Hnin. apply (in_map fst m (k', v) Hin).
Qed.

Lemma deepEqual_mask_refl (m : Mask) : NoDup (map fst m) -> deepEqual_mask m m = true.
Proof.
  intros Hnd. unfold deepEqual_mask. rewrite Nat.eqb_refl. cbn.
  apply forallb_forall. intros [k v] Hin. rewrite (mask_get_In m k v Hnd Hin).
  apply eqb_reflx.
Qed.

Lemma setMask_unchanged fromID EXTENT MAX_VERTEX_ARRAY_LENGTH (w : World) (m : Mask) :
  deepEqual (tile w).(mask) m = true ->
  setMask fromID EXTENT MAX_VERTEX_ARRAY_LENGTH m w = (tt, w).
Proof.
  intros H. destruct w as [t es]; cbn [tile] in H.
  unfold setMask, bind, get. cbv beta iota. cbn [tile]. now rewrite H.
Qed.

Lemma setMask_shape fromID EXTENT MAX_VERTEX_ARRAY_LENGTH (w : World) (m : Mask) :
  let w' := exec (setMask fromID EXTENT MAX_VERTEX_ARRAY_LENGTH m) w in
  (deepEqual (tile w).(mask) m = true -> w' = w) /\
  (deepEqual (tile w).(mask) m = false -> (tile w').(mask) = Some m) /\
  exists mk sg mbb mib es',
    w' = mkWorld (set_segments sg (set_maskedIndexBuffer mib (set_maskedBoundsBuffer mbb
                   (set_mask mk (tile w))))) (effects w ++ es') /\
    forallb mask_effect es' = true.
Proof.
  cbn zeta.
  destruct (deepEqual (tile w).(mask) m) eqn:Heq.
  - unfold exec. rewrite setMask_unchanged by exact Heq. cbn [snd].
    split; [reflexivity|]. split; [discriminate|].
    destruct w as [[c st bs ii it gi gt ex cnt raw cba fi vt mk mbb mib sg] es].
    exists mk, sg, mbb, mib, []. now rewrite app_nil_r.
  - assert (Hce : forallb mask_effect (clearMask_effects (tile w)) = true).
    { unfold clearMask_effects.
      destruct (segments (tile w)), (maskedBoundsBuffer (tile w)), (maskedIndexBuffer (tile w));
        reflexivity. }
    split; [discriminate|].
    destruct (deepEqual (Some m) wholeTileMask) eqn:Hw.
    + destruct w as [t es]; cbn [tile] in Heq, Hce |- *.
      unfold setMask, bind, get, exec. cbv beta iota. cbn [tile]. rewrite Heq.
      unfold modify. cbn [tile effects]. rewrite clearMask_run. cbn [tile snd].
      change (deepEqual (Some m) wholeTileMask) with (deepEqual_mask m wholeTileMask) in Hw.
      cbn. rewrite Hw. cbn. split; [reflexivity|].
      exists (Some m), None, None, None, (clearMask_effects t).
      split; [|exact Hce].
      destruct t; reflexivity.
    + destruct (fold_left (emitMaskRegion fromID EXTENT MAX_VERTEX_ARRAY_LENGTH) (map fst m)
                  ([], [], prepareSegment MAX_VERTEX_ARRAY_LENGTH 0 [] 0 0)) as [[vs is] sv] eqn:Hf.
      rewrite (setMask_tessellate_run fromID EXTENT MAX_VERTEX_ARRAY_LENGTH w m vs is sv Heq Hw Hf).
      split; [destruct (tile w); reflexivity|].
      exists (Some m), (Some sv), (Some (mkVertexBuffer vs)), (Some (mkIndexBuffer is)),
        (clearMask_effects (tile w)
           ++ [CreateVertexBuffer (mkVertexBuffer vs); CreateIndexBuffer (mkIndexBuffer is)]).
      split.
      * destruct w as [[c st bs ii it gi gt ex cnt raw cba fi vt mk mbb mib sg] es]; reflexivity.
      * rewrite forallb_app, Hce. reflexivity.
Qed.

(** X11: applying the same mask twice is the same as applying it once: the
    second [setMask] finds the mask deep-equal and keeps the buffers built
    by the first. The mask's keys are distinct, as those of a JS object. *)
Theorem setMask_twice fromID EXTENT MAX_VERTEX_ARRAY_LENGTH (w : World) (m : Mask)
    (Hnd : NoDup (map fst m)) :
  let sm := setMask fromID EXTENT MAX_VERTEX_ARRAY_LENGTH m in
  exec sm (exec sm w) = exec sm w.
Proof.
  cbn zeta.
  destruct (setMask_shape fromID EXTENT MAX_VERTEX_ARRAY_LENGTH w m) as (Ht & Hf & _).
  destruct (deepEqual (tile w).(mask) m) eqn:Heq.
  - rewrite (Ht eq_refl). exact (Ht eq_refl).
  - unfold exec at 1. rewrite setMask_unchanged; [reflexivity|].
    rewrite (Hf eq_refl). cbn. now apply deepEqual_mask_refl.
Qed.

(** X12: [setMask] changes only the mask and its three GPU resources
    ([segments], [maskedBoundsBuffer], [maskedIndexBuffer]); the only calls
    it makes destroy or create those resources. *)
Theorem setMask_frame fromID EXTENT MAX_VERTEX_ARRAY_LENGTH (w : World) (m : Mask) :
  exists mk sg mbb mib es',
    exec (setMask fromID EXTENT MAX_VERTEX_ARRAY_LENGTH m) w
    = mkWorld (set_segments sg (set_maskedIndexBuffer mib (set_maskedBoundsBuffer mbb
                 (set_mask mk (tile w))))) (effects w ++ es') /\
    forallb mask_effect es' = true.
Proof. exact (proj2 (proj2 (setMask_shape fromID EXTENT MAX_VERTEX_ARRAY_LENGTH w m))). Qed.

(** ** Source-feature queries *)

Lemma querySourceFeatures_shape decodeLayers featureFilter
    (result : list GeoJSONFeature) (params : option QueryParams) (w : World) :
  exec (querySourceFeatures decodeLayers featureFilter result params) w
  = mkWorld (match (tile w).(rawTileData), (tile w).(vtLayers) with
             | Some raw, None => set_vtLayers (Some (decodeLayers raw)) (tile w)
             | _, _ => tile w
             end) (effects w).
Proof.
  destruct w as [[c st bs ii it gi gt ex cnt raw cba fi vt mk mbb mib sg] es].
  unfold querySourceFeatures, exec. mrun.
  destruct raw as [raw|]; mrun; [|reflexivity].
  destruct vt as [ls|]; mrun.
  all: destruct (lookup_layer "_geojsonTileLayer" _) as [ly|];
         [| destruct (lookup_layer _ _) as [ly|]].
  all: reflexivity.
Qed.

(** X13: a source-feature query makes no call and changes at most the
    decoded-layer cache, so it does not affect later queries: a second query
    after any first one returns what it would have returned on its own, and
    leaves the tile as the first query left it. *)
Theorem querySourceFeatures_cached decodeLayers featureFilter
    (r1 r2 : list GeoJSONFeature) (p1 p2 : option QueryParams) (w : World) :
  let w1 := exec (querySourceFeatures decodeLayers featureFilter r1 p1) w in
  effects w1 = effects w /\
  tile w1 = match (tile w).(rawTileData), (tile w).(vtLayers) with
            | Some raw, None => set_vtLayers (Some (decodeLayers raw)) (tile w)
            | _, _ => tile w
            end /\
  eval (querySourceFeatures decodeLayers featureFilter r2 p2) w1
    = eval (querySourceFeatures decodeLayers featureFilter r2 p2) w /\
  exec (querySourceFeatures decodeLayers featureFilter r2 p2) w1 = w1.
Proof.
  cbn zeta. rewrite !querySourceFeatures_shape.
  destruct w as [[c st bs ii it gi gt ex cnt raw cba fi vt mk mbb mib sg] es]; cbn.
  split; [reflexivity|].
  split; [reflexivity|].
  destruct raw as [raw|]; [|split; reflexivity].
  destruct vt as [ls|]; [split; reflexivity|].
  split; [|reflexivity].
  unfold querySourceFeatures, eval. mrun. reflexivity.
Qed.

(** ** Rendered-feature queries *)

(** X14: a tile without a feature index answers every rendered-feature query
    with an empty result: a new tile, and every tile after
    [unloadVectorData]. *)
Theorem queryRenderedFeatures_without_featureIndex queryRadius FeatureIndex_query
    (c : TileCoord) (w : World) (tileSize sourceMaxZoom : Z)
    (layers : list (string * StyleLayer)) (queryGeometry : list (list (Z * Z)))
    (scale : Z) (params : option FilterSpecification * list string) (bearing : Z)
    (sourceID : string) :
  queryRenderedFeatures queryRadius FeatureIndex_query (newTile c) tileSize sourceMaxZoom
    layers queryGeometry scale params bearing sourceID = [] /\
  queryRenderedFeatures queryRadius FeatureIndex_query (tile (exec unloadVectorData w))
    tileSize sourceMaxZoom layers queryGeometry scale params bearing sourceID = [].
Proof.
  split; [reflexivity|]. unfold exec. rewrite unloadVectorData_run. reflexivity.
Qed.

Lemma additionalRadius_fold queryRadius (t : Tile) (layers : list (string * StyleLayer)) (r : Z) :
  let f := fun r '(_, layer) =>
             match getBucket t layer with
             | Some bucket => Z.max r (queryRadius layer bucket)
             | None => r
             end in
  let R := fold_left f layers r in
  r <= R /\
  (forall id l b, In (id, l) layers -> getBucket t l = Some b -> queryRadius l b <= R) /\
  (R = r \/ exists id l b, In (id, l) layers /\ getBucket t l = Some b /\ R = queryRadius l b).
Proof.
  cbn zeta. revert r. induction layers as [|[id l] layers IH]; intros r; cbn.
  - split; [lia|]. split; [contradiction|]. now left.
  - destruct (getBucket t l) as [b|] eqn:Hb.
    + destruct (IH (Z.max r (queryRadius l b))) as (H1 & H2 & H3).
      split; [lia|]. split.
      * intros id' l' b' [Heq|Hin] Hb'.
        -- injection Heq as -> ->. rewrite Hb in Hb'. injection Hb' as ->. lia.
        -- exact (H2 id' l' b' Hin Hb').
      * destruct H3 as [H3 | (id' & l' & b' & Hin & Hb' & H3)].
        -- rewrite H3.
           destruct (Z.max_spec r (queryRadius l b)) as [[_ Hm] | [_ Hm]]; rewrite Hm;
             [right; exists id, l, b; auto | left; reflexivity].
        -- right. exists id', l', b'. auto.
    + destruct (IH r) as (H1 & H2 & H3).
      split; [exact H1|]. split.
      * intros id' l' b' [Heq|Hin] Hb'.
        -- injection Heq as -> ->. congruence.
        -- exact (H2 id' l' b' Hin Hb').
      * destruct H3 as [H3 | (id' & l' & b' & Hin & Hb' & H3)]; [now left|].
        right. exists id', l', b'. auto.
Qed.

(** X15: the additional query radius is never negative, is at least the
    query radius of every queried layer that has a bucket in the tile, and is
    either 0 or the radius of one of those layers; layers without a bucket
    do not count. *)
Theorem additionalRadius_bounds queryRadius (t : Tile) (layers : list (string * StyleLayer)) :
  let R := additionalRadius queryRadius t layers in
  0 <= R /\
  (forall id l b, In (id, l) layers -> getBucket t l = Some b -> queryRadius l b <= R) /\
  (R = 0 \/ exists id l b, In (id, l) layers /\ getBucket t l = Some b /\ R = queryRadius l b).
Proof. exact (additionalRadius_fold queryRadius t layers 0). Qed.

(** ** Symbol placement *)

(** X16: after [unloadVectorData] a tile takes no part in symbol placement:
    [placeLayer] does nothing for any layer, [added] and [removed] register
    nothing with the cross-tile index and [commitPlacement] makes no call. *)
Theorem unloadVectorData_leaves_no_symbols isSymbolBucket (w : World) (layer : StyleLayer)
    (sourceMaxZoom angle : Z) :
  let t := tile (exec unloadVectorData w) in
  placeLayer isSymbolBucket t layer = None /\
  added isSymbolBucket t sourceMaxZoom = [] /\
  removed isSymbolBucket t sourceMaxZoom = [] /\
  commitPlacement isSymbolBucket t angle = [].
Proof.
  cbn zeta. unfold exec. rewrite unloadVectorData_run. cbn.
  repeat split; reflexivity.
Qed.

(** X17: [removed] undoes [added]: it makes one [removeTileLayer] call per
    [addTileLayer] call of [added], in the same order and with the same
    layer id, coordinate and source maximum zoom. *)
Theorem removed_mirrors_added isSymbolBucket (t : Tile) (sourceMaxZoom : Z) :
  removed isSymbolBucket t sourceMaxZoom
  = map (fun call => match call with
                     | AddTileLayer id c z _ => RemoveTileLayer id c z
                     | RemoveTileLayer id c z => RemoveTileLayer id c z
                     end) (added isSymbolBucket t sourceMaxZoom).
Proof.
  unfold removed, added. induction (buckets t) as [|[id b] bs IH]; cbn; [reflexivity|].
  destruct (isSymbolBucket (bucket_data b)); cbn; now rewrite IH.
Qed.

(** X18: [commitPlacement] hands the collision index to the feature index
    only after every symbol bucket has been updated: the call is made once,
    last, exactly when the tile has a feature index; the buckets updated are
    exactly the symbol buckets. *)
Theorem commitPlacement_collision_index_last isSymbolBucket (t : Tile) (angle : Z) :
  exists pre,
    commitPlacement isSymbolBucket t angle
      = pre ++ match t.(featureIndex) with Some _ => [SetCollisionIndex] | None => [] end /\
    ~ In SetCollisionIndex pre /\
    (forall id, In (UpdateOpacities id) pre <->
                exists b, In (id, b) t.(buckets) /\ isSymbolBucket b.(bucket_data) = true).
Proof.
  unfold commitPlacement. eexists. split; [reflexivity|].
  induction (buckets t) as [|[id b] bs IH]; cbn.
  - split; [tauto|]. intros id; split; [contradiction | intros (b & [] & _)].
  - destruct IH as [IH1 IH2].
    destruct (isSymbolBucket (bucket_data b)) eqn:Hs; cbn.
    + split; [intros [H|[H|H]]; [discriminate | discriminate | contradiction]|].
      intros id'. split.
      * intros [H|[H|H]]; [injection H as ->; exists b; auto | discriminate |].
        destruct (proj1 (IH2 id') H) as (b' & Hin & Hb'). exists b'; auto.
      * intros (b' & [Heq|Hin] & Hb').
        -- injection Heq as -> ->. now left.
        -- right; right. apply IH2. exists b'; auto.
    + split; [exact IH1|]. intros id'. rewrite IH2. split.
      * intros (b' & Hin & Hb'). exists b'; auto.
      * intros (b' & [Heq|Hin] & Hb'); [injection Heq as -> ->; congruence|].
        exists b'; auto.
Qed.

(** ** Fading *)

(** X19: [registerFadeDuration] never moves a set fade end time earlier and
    never changes [timeAdded]. *)
Theorem registerFadeDuration_monotone (s : FadeState) (duration now1 now2 : Z)
    (Hset : time_truthy s.(fadeEndTime) = true) :
  let s' := fst (registerFadeDuration s duration now1 now2) in
  s'.(timeAdded) = s.(timeAdded) /\
  exists f f', s.(fadeEndTime) = Some f /\ s'.(fadeEndTime) = Some f' /\ f <= f'.
Proof.
  destruct s as [ta [f|]]; [|discriminate Hset].
  unfold registerFadeDuration. cbn [timeAdded fadeEndTime] in Hset |- *.
  rewrite Hset. cbn [andb].
  destruct (duration + ta <? now1) eqn:E1; cbn; [split; [reflexivity|]; exists f, f; auto with zarith|].
  destruct (duration + ta <? f) eqn:E2; cbn; split; try reflexivity.
  - exists f, f; auto with zarith.
  - exists f, (duration + ta). apply Z.ltb_ge in E2. auto.
Qed.


(** ** Invariants of every call sequence *)

Lemma mask_inv_mask_fields (t t' : Tile) :
  mask_fields t' = mask_fields t -> mask_inv t -> mask_inv t'.
Proof.
  unfold mask_fields, mask_inv. intros H. injection H as H1 H2 H3 H4.
  rewrite H1, H2, H3, H4. exact (fun h => h).
Qed.

Lemma loadVectorData_mask_fields (Style : Type) deserializeBucket FeatureIndex_deserialize
    data (style : Style) (w : World) :
  mask_fields (tile (exec (loadVectorData Style deserializeBucket FeatureIndex_deserialize data style) w))
  = mask_fields (tile w).
Proof.
  destruct w as [[c st bs ii it gi gt ex cnt raw cba fi vt mk mbb mib sg] es].
  unfold loadVectorData. mrun.
  destruct (hasData _); mrun; [rewrite unloadVectorData_run; cbn|];
  destruct data as [d|]; mrun; try reflexivity;
  destruct (wt_rawTileData d), (wt_iconAtlasImage d), (wt_glyphAtlasImage d); mrun; reflexivity.
Qed.

Lemma setExpiryData_keeps_mask_fields (data : ExpiryData) (now_cc now : Z) (w : World) :
  mask_fields (tile (exec (setExpiryData data now_cc now) w)) = mask_fields (tile w).
Proof.
  destruct w as [[c st bs ii it gi gt ex cnt raw cba fi vt mk mbb mib sg] es].
  unfold setExpiryData. mrun.
  repeat match goal with
         | |- context [if ?b then _ else _] => destruct b; mrun
         | |- context [match ?e with Some _ => _ | None => _ end] => destruct e; mrun
         end; reflexivity.
Qed.

Lemma exec_then_skip {A} (m : M A) (w : World) : exec (m ;; skip) w = exec m w.
Proof. unfold exec, bind, skip, ret. now destruct (m w). Qed.

Lemma exec_for_each_cons {A} (f : A -> M unit) (x : A) (l : list A) (w : World) :
  exec (for_each f (x :: l)) w = exec (for_each f l) (exec (f x) w).
Proof. unfold exec; cbn; unfold bind. now destruct (f x w). Qed.

Section OperationProofs.
Variable Style : Type.
Variable deserializeBucket : list (string * nat) -> Style -> list (string * Bucket).
Variable FeatureIndex_deserialize : nat -> option bytes -> FeatureIndex.
Variable fromID : Z -> TileCoord.
Variable EXTENT MAX_VERTEX_ARRAY_LENGTH : Z.
Variable decodeLayers : bytes -> list (string * VectorTileLayer).
Variable featureFilter : option FilterSpecification -> Z -> VectorTileFeature -> bool.

Abbreviation run_op' := (run_op Style deserializeBucket FeatureIndex_deserialize fromID EXTENT
                       MAX_VERTEX_ARRAY_LENGTH decodeLayers featureFilter).
Abbreviation run_ops' := (run_ops Style deserializeBucket FeatureIndex_deserialize fromID EXTENT
                        MAX_VERTEX_ARRAY_LENGTH decodeLayers featureFilter).

Lemma run_op_invariants (o : TileOp Style) (w : World) :
  data_inv (tile w) -> mask_inv (tile w) ->
  data_inv (tile (exec (run_op' o) w)) /\ mask_inv (tile (exec (run_op' o) w)).
Proof.
  intros Hd Hm. destruct o as [data style| | |data now_cc now|m| |result params]; cbn.
  - split; [apply data_inv_loadVectorData|].
    apply (mask_inv_mask_fields (tile w)); [apply loadVectorData_mask_fields | exact Hm].
  - split; [apply data_inv_unloadVectorData|].
    apply (mask_inv_mask_fields (tile w)); [|exact Hm].
    unfold exec; rewrite unloadVectorData_run. destruct w as [[] ?]; reflexivity.
  - split; [now apply data_inv_upload|].
    apply (mask_inv_mask_fields (tile w)); [|exact Hm].
    rewrite upload_run. destruct w as [[] ?]; reflexivity.
  - split; [now apply data_inv_setExpiryData|].
    apply (mask_inv_mask_fields (tile w)); [apply setExpiryData_keeps_mask_fields | exact Hm].
  - split; [|now apply mask_inv_setMask].
    destruct (proj2 (proj2 (setMask_shape fromID EXTENT MAX_VERTEX_ARRAY_LENGTH w m)))
      as (mk & sg & mbb & mib & es' & -> & _).
    destruct w as [[] ?]; exact Hd.
  - unfold exec; rewrite clearMask_run; cbn [snd tile].
    split; [destruct w as [[] ?]; exact Hd|].
    intros _. destruct w as [[] ?]; now repeat split.
  - rewrite exec_then_skip, querySourceFeatures_shape. cbn [tile].
    destruct w as [[] ?]; cbn [tile rawTileData vtLayers].
    destruct rawTileData0, vtLayers0; split; assumption.
Qed.

Lemma run_ops_invariants_from (os : list (TileOp Style)) (w : World) :
  data_inv (tile w) -> mask_inv (tile w) ->
  data_inv (tile (exec (run_ops' os) w)) /\ mask_inv (tile (exec (run_ops' os) w)).
Proof.
  revert w; induction os as [|o os IH]; intros w Hd Hm.
  - split; assumption.
  - unfold run_ops. rewrite exec_for_each_cons.
    destruct (run_op_invariants o w Hd Hm) as [Hd' Hm'].
    exact (IH _ Hd' Hm').
Qed.

(** X21: along every sequence of calls to [loadVectorData],
    [unloadVectorData], [upload], [setExpiryData], [setMask], [clearMask] and
    [querySourceFeatures] on a new tile, a tile in a state without data
    (loading, unloaded, errored) holds no bucket and no feature index, and a
    tile whose mask is the whole-tile mask holds no mask buffers. *)
Theorem run_ops_invariants (os : list (TileOp Style)) (c : TileCoord) :
  let t := tile (exec (run_ops' os) (mkWorld (newTile c) [])) in
  data_inv t /\ mask_inv t.
Proof. apply run_ops_invariants_from; [apply data_inv_newTile | apply mask_inv_newTile]. Qed.

(** X22: on a tile reached from a new tile by any sequence of these calls,
    while the state has no data, [getBucket] finds no bucket for any layer,
    [placeLayer] places nothing, [added] registers nothing and
    [queryRenderedFeatures] answers with an empty result. *)
Theorem run_ops_no_data_no_symbols (os : list (TileOp Style)) (c : TileCoord)
    isSymbolBucket queryRadius FeatureIndex_query (layer : StyleLayer)
    (tileSize sourceMaxZoom : Z) (layers : list (string * StyleLayer))
    (queryGeometry : list (list (Z * Z))) (scale : Z)
    (params : option FilterSpecification * list string) (bearing : Z) (sourceID : string) :
  let t := tile (exec (run_ops' os) (mkWorld (newTile c) [])) in
  hasData t = false ->
  getBucket t layer = None /\
  placeLayer isSymbolBucket t layer = None /\
  added isSymbolBucket t sourceMaxZoom = [] /\
  queryRenderedFeatures queryRadius FeatureIndex_query t tileSize sourceMaxZoom layers
    queryGeometry scale params bearing sourceID = [].
Proof.
  cbn zeta. intros Hh.
  destruct (run_ops_invariants_from os (mkWorld (newTile c) [])
              (data_inv_newTile c) (mask_inv_newTile c)) as [Hd _].
  destruct (Hd Hh) as [Hb Hf].
  unfold placeLayer, added, queryRenderedFeatures, getBucket.
  rewrite Hb, Hf. cbn. repeat split; reflexivity.
Qed.

End OperationProofs.

(** ** Witnesses at concrete inputs *)

(** A loaded tile whose layers were decoded by a source-feature query, and a
    later payload carrying different raw data. *)
Definition example_queried_world : World :=
  exec (querySourceFeatures example_decodeLayers example_featureFilter [] None)
       (exec example_load example_world).
Definition example_reload_payload : WorkerTileResult :=
  mkWorkerTileResult (Some [Byte.x1a]) [] 8 [] None None.

Lemma querySourceFeatures_stale_after_reload_witness :
  (tile example_queried_world).(vtLayers) = Some (example_decodeLayers [Byte.x1a; Byte.x02]) /\
  example_reload_payload.(wt_rawTileData) = Some [Byte.x1a] /\
  map (fun g => g.(gj_vectorTileFeature).(vtf_id))
    (eval (querySourceFeatures example_decodeLayers example_featureFilter []
             (Some (mkQueryParams (Some "roads"%string) None)))
          (exec (loadVectorData unit example_deserializeBucket example_FeatureIndex_deserialize
                   (Some example_reload_payload) tt) example_queried_world)) = [2; 2].
Proof.
  split; [reflexivity|]. split; [reflexivity|].
  destruct (querySourceFeatures_stale_after_reload unit example_deserializeBucket
              example_FeatureIndex_deserialize example_decodeLayers example_featureFilter
              example_reload_payload tt example_queried_world []
              (Some (mkQueryParams (Some "roads"%string) None))
              (example_decodeLayers [Byte.x1a; Byte.x02]) [Byte.x1a] eq_refl eq_refl) as [_ H].
  rewrite H. reflexivity.
Defined.

Lemma setExpiryData_max_age_timeout_witness :
  0 < 60 /\ 0 <= 1000 /\
  getExpiryTimeout (tile (exec (setExpiryData (mkExpiryData (Some (Some 60)) None) 1000 1000)
                          example_world)) 1000 = Some 60000.
Proof.
  split; [lia|]. split; [lia|].
  destruct (setExpiryData_max_age_timeout 60 1000 example_world ltac:(lia) ltac:(lia))
    as (_ & _ & _ & H).
  rewrite H. reflexivity.
Defined.

Lemma setExpiryData_repeated_stale_witness :
  1000 <> 0 /\ 1000 <= 2000 /\
  (tile (exec (repeat_m 3 (setExpiryData (mkExpiryData None (Some (Some 1000))) 2000 2000))
              example_world)).(expiredRequestCount) = 3.
Proof.
  split; [lia|]. split; [lia|].
  rewrite (setExpiryData_repeated_stale 1000 2000 2000 2 example_world ltac:(lia) ltac:(lia)
             (or_introl eq_refl)).
  reflexivity.
Defined.

Definition example_fresh_tile : Tile :=
  set_expirationTime (Some 5000) (newTile (mkTileCoord 0 0 0)).


Definition example_backoff_tile : Tile := set_expiredRequestCount 23 example_fresh_tile.

Lemma getExpiryTimeout_backoff_exceeds_cap_witness :
  time_truthy example_backoff_tile.(expirationTime) = true /\
  23 <= example_backoff_tile.(expiredRequestCount) <= 31 /\
  exists x, getExpiryTimeout example_backoff_tile 0 = Some x /\ 2 ^ 31 - 1 < x.
Proof.
  split; [reflexivity|]. split; [cbn; lia|].
  apply (getExpiryTimeout_backoff_exceeds_cap example_backoff_tile 0); [reflexivity | cbn; lia].
Defined.

Lemma setMask_twice_witness :
  NoDup (map fst example_mask) /\
  exec (setMask example_fromID 8192 65535 example_mask)
       (exec (setMask example_fromID 8192 65535 example_mask) example_world)
  = exec (setMask example_fromID 8192 65535 example_mask) example_world.
Proof.
  assert (Hnd : NoDup (map fst example_mask)).
  { cbn. constructor; [intros [H|[]]; discriminate|].
    constructor; [intros []|constructor]. }
  split; [exact Hnd|].
  exact (setMask_twice example_fromID 8192 65535 example_world example_mask Hnd).
Defined.

Lemma registerFadeDuration_monotone_witness :
  time_truthy (mkFadeState 100 (Some 500)).(fadeEndTime) = true /\
  (fst (registerFadeDuration (mkFadeState 100 (Some 500)) 300 0 0)).(fadeEndTime) = Some 500.
Proof.
  split; [reflexivity|].
  destruct (registerFadeDuration_monotone (mkFadeState 100 (Some 500)) 300 0 0 eq_refl)
    as (_ & f & f' & Hf & Hf' & _).
  rewrite Hf'. injection Hf as <-. cbn in Hf'. injection Hf' as <-. reflexivity.
Defined.

(** Loading a payload and unloading it again. *)
Definition example_ops : list (TileOp unit) :=
  [OpLoadVectorData unit (Some example_payload) tt; OpUnloadVectorData unit].

Lemma run_ops_no_data_no_symbols_witness :
  let t := tile (exec (run_ops unit example_deserializeBucket example_FeatureIndex_deserialize
                         example_fromID 8192 65535 example_decodeLayers example_featureFilter
                         example_ops) (mkWorld (newTile (mkTileCoord 3 1 2)) [])) in
  hasData t = false /\
  getBucket t (mkStyleLayer "roads") = None /\
  placeLayer (fun _ => true) t (mkStyleLayer "roads") = None /\
  added (fun _ => true) t 14 = [] /\
  queryRenderedFeatures (fun _ _ => 10) (fun _ _ _ => [("roads"%string, [])]) t 512 14
    [("roads"%string, mkStyleLayer "roads")] [] 1 (None, []) 0 "src"%string = [].
Proof.
  cbn zeta. split; [reflexivity|].
  apply (run_ops_no_data_no_symbols unit example_deserializeBucket
           example_FeatureIndex_deserialize example_fromID 8192 65535 example_decodeLayers
           example_featureFilter example_ops (mkTileCoord 3 1 2)).
  reflexivity.
Defined.
